(** * Form 460 processed-data schema: storage model and properties

    The module [calaccess_processed/models/campaign/filings/form460.py]
    is a Django schema: sixteen concrete models declared by field lists,
    [unique_together] sets and foreign keys with an [on_delete] policy.
    This development transcribes those declarations as data and gives them
    the meaning the ORM and the SQL storage give them:

    - a row is a finite map from field names to values, an absent name
      being Python's [None] and SQL's [NULL];
    - a store maps a model name to its table (rows in insertion order and
      the next value of the [id] sequence);
    - [insert] is [Model.save(force_insert=True)]: NOT NULL columns, then
      primary key and [unique_together] (NULLs never collide), then the
      foreign keys that carry a storage constraint;
    - [delete_instance] is the ORM's deletion collector, which applies the
      [on_delete] policy of every foreign key pointing at the deleted row;
    - [create], [objects_filter], [objects_get] are the manager's calls of
      the same names, and each [__str__] is transcribed with the lookups
      its attribute accesses make.

    Rows are assumed to carry only declared fields, with values of the
    Python type of the field; conversion and range errors of the database
    adapter are not part of the model.  [verbose_name] and [help_text] are
    documentation and are left out of the field records. *)

From Stdlib Require Import ZArith List Bool Lia.
From stdpp Require Import base option list gmap strings pretty.

Open Scope Z_scope.
Open Scope string_scope.
Open Scope list_scope.

(** ** Values and rows *)

Inductive value : Type :=
| VInt (z : Z)               (* IntegerField, AutoField, raw foreign key *)
| VDate (y m d : Z)          (* DateField *)
| VDecimal (hundredths : Z)  (* DecimalField(decimal_places=2) *)
| VStr (s : string).         (* CharField *)

Global Instance value_eq_dec : EqDecision value.
Proof. solve_decision. Defined.

(** A model instance, and a table row: field name to value. *)
Abbreviation row := (gmap string value).

(** ** Field and model declarations (django.db.models) *)

Inductive on_delete_policy : Type := CASCADE | PROTECT | SET_NULL | DO_NOTHING.

Inductive field_kind : Type :=
| AutoField
| IntegerField
| DateField
| DecimalField (max_digits decimal_places : nat)
| CharField (max_length : nat)
| ForeignKey (to related_name : string) (db_constraint : bool)
             (on_delete : on_delete_policy).

Record field : Type := Field {
  name : string;
  kind : field_kind;
  null : bool;
  primary_key : bool;
  db_index : bool;
  blank : bool
}.

Record model : Type := Model {
  model_name : string;
  fields : list field;
  unique_together : list (list string);
  index_together : list (list string)
}.

(** Django's defaults: [null=False], [primary_key=False], [db_index=False],
    [blank=False]; for a foreign key [db_constraint=True]. *)
Definition column (n : string) (k : field_kind) : field :=
  Field n k false false false false.
Definition nullable (f : field) : field :=
  Field (name f) (kind f) true (primary_key f) (db_index f) (blank f).
Definition as_primary_key (f : field) : field :=
  Field (name f) (kind f) (null f) true (db_index f) (blank f).
Definition indexed (f : field) : field :=
  Field (name f) (kind f) (null f) (primary_key f) true (blank f).
Definition blankable (f : field) : field :=
  Field (name f) (kind f) (null f) (primary_key f) (db_index f) true.

(** ** The schema of form460.py *)

(** The four abstract bases are imported from
    [calaccess_processed.models.campaign.filings], whose declarations are
    not in form460.py.  The specification names the columns they
    contribute that matter here: every itemized row has a required
    [line_item], and the expenditure bases carry the required [amount]
    that the contribution schedules declare themselves. *)

(** Modelled from the spec: the fields of the base [CampaignFinanceFilingBase]
    are missing; the specification names none of them. *)
Definition CampaignFinanceFilingBase : list field := [].

(** Modelled from the spec: the fields of the base [CampaignContributionBase]
    are missing; the specification gives it the required [line_item]. *)
Definition CampaignContributionBase : list field :=
  [ column "line_item" IntegerField ].

(** Modelled from the spec: the fields of the base
    [CampaignExpenditureItemBase] are missing; the specification gives it
    the required [line_item] and [amount]. *)
Definition CampaignExpenditureItemBase : list field :=
  [ column "line_item" IntegerField;
    column "amount" (DecimalField 14 2) ].

(** Modelled from the spec: the fields of the base
    [CampaignExpenditureSubItemBase] are missing; the specification gives
    it the required [line_item] and [amount]. *)
Definition CampaignExpenditureSubItemBase : list field :=
  [ column "line_item" IntegerField;
    column "amount" (DecimalField 14 2) ].

Definition Form460FilingBase : list field :=
  CampaignFinanceFilingBase ++
  [ indexed (column "from_date" DateField);
    indexed (column "thru_date" DateField);
    nullable (column "monetary_contributions" IntegerField);
    nullable (column "loans_received" IntegerField);
    nullable (column "subtotal_cash_contributions" IntegerField);
    nullable (column "nonmonetary_contributions" IntegerField);
    nullable (column "total_contributions" IntegerField);
    nullable (column "payments_made" IntegerField);
    nullable (column "loans_made" IntegerField);
    nullable (column "subtotal_cash_payments" IntegerField);
    nullable (column "unpaid_bills" IntegerField);
    nullable (column "nonmonetary_adjustment" IntegerField);
    nullable (column "total_expenditures_made" IntegerField);
    nullable (column "begin_cash_balance" IntegerField);
    nullable (column "cash_receipts" IntegerField);
    nullable (column "miscellaneous_cash_increases" IntegerField);
    nullable (column "cash_payments" IntegerField);
    nullable (column "ending_cash_balance" IntegerField);
    nullable (column "loan_guarantees_received" IntegerField);
    nullable (column "cash_equivalents" IntegerField);
    nullable (column "outstanding_debts" IntegerField) ].

Definition Form460Filing : model :=
  Model "Form460Filing"
    (Form460FilingBase ++
     [ as_primary_key (column "filing_id" IntegerField);
       indexed (column "amendment_count" IntegerField) ])
    []
    [ ["filing_id"; "amendment_count"] ].

Definition Form460FilingVersion : model :=
  Model "Form460FilingVersion"
    (Form460FilingBase ++
     [ nullable (column "filing"
         (ForeignKey "Form460Filing" "versions" false SET_NULL));
       column "amend_id" IntegerField ])
    [ ["filing"; "amend_id"] ]
    [ ["filing"; "amend_id"] ].

(** Every itemized model of the current tier has the same shape: the
    fields of its base, a nullable [filing] reference and
    [unique_together = (filing, line_item)]. *)
Definition current_item (n : string) (base : list field)
    (related_name : string) (db_constraint : bool) : model :=
  Model n
    (base ++
     [ nullable (column "filing"
         (ForeignKey "Form460Filing" related_name db_constraint SET_NULL)) ])
    [ ["filing"; "line_item"] ]
    [].

(** Every itemized model of the version tier: a nullable [filing_version]
    reference, [unique_together] and [index_together] on
    [(filing_version, line_item)]. *)
Definition version_item (n : string) (base : list field)
    (related_name : string) : model :=
  Model n
    (base ++
     [ nullable (column "filing_version"
         (ForeignKey "Form460FilingVersion" related_name true SET_NULL)) ])
    [ ["filing_version"; "line_item"] ]
    [ ["filing_version"; "line_item"] ].

Definition Form460ScheduleAItemBase : list field :=
  CampaignContributionBase ++
  [ column "amount" (DecimalField 14 2) ].

Definition Form460ScheduleAItem : model :=
  current_item "Form460ScheduleAItem" Form460ScheduleAItemBase
    "itemized_monetary_contributions" true.
Definition Form460ScheduleAItemVersion : model :=
  version_item "Form460ScheduleAItemVersion" Form460ScheduleAItemBase
    "itemized_monetary_contributions".

Definition Form460ScheduleCItemBase : list field :=
  CampaignContributionBase ++
  [ column "fair_market_value" (DecimalField 14 2);
    blankable (column "contribution_description" (CharField 90)) ].

Definition Form460ScheduleCItem : model :=
  current_item "Form460ScheduleCItem" Form460ScheduleCItemBase
    "itemized_nonmonetary_contributions" true.
Definition Form460ScheduleCItemVersion : model :=
  version_item "Form460ScheduleCItemVersion" Form460ScheduleCItemBase
    "itemized_nonmonetary_contributions".

Definition Form460ScheduleDItemBase : list field :=
  CampaignExpenditureItemBase ++
  [ nullable (column "cumulative_election_amount" (DecimalField 14 2)) ].

Definition Form460ScheduleDItem : model :=
  current_item "Form460ScheduleDItem" Form460ScheduleDItemBase
    "schedule_d_items" true.
Definition Form460ScheduleDItemVersion : model :=
  version_item "Form460ScheduleDItemVersion" Form460ScheduleDItemBase
    "schedule_d_items".

Definition Form460ScheduleEItem : model :=
  current_item "Form460ScheduleEItem" CampaignExpenditureItemBase
    "schedule_e_items" true.
Definition Form460ScheduleEItemVersion : model :=
  version_item "Form460ScheduleEItemVersion" CampaignExpenditureItemBase
    "schedule_e_items".

Definition Form460ScheduleESubItem : model :=
  current_item "Form460ScheduleESubItem" CampaignExpenditureSubItemBase
    "schedule_e_subitems" true.
Definition Form460ScheduleESubItemVersion : model :=
  version_item "Form460ScheduleESubItemVersion" CampaignExpenditureSubItemBase
    "schedule_e_subitems".

Definition Form460ScheduleGItemBase : list field :=
  CampaignExpenditureSubItemBase ++
  [ blankable (column "agent_title" (CharField 10));
    blankable (column "agent_lastname" (CharField 200));
    column "agent_firstname" (CharField 45);
    blankable (column "agent_name_suffix" (CharField 10));
    blankable (column "parent_schedule" (CharField 1)) ].

Definition Form460ScheduleGItem : model :=
  current_item "Form460ScheduleGItem" Form460ScheduleGItemBase
    "schedule_g_items" true.
Definition Form460ScheduleGItemVersion : model :=
  version_item "Form460ScheduleGItemVersion" Form460ScheduleGItemBase
    "schedule_g_items".

Definition Form460ScheduleIItemBase : list field :=
  CampaignContributionBase ++
  [ column "amount" (DecimalField 14 2);
    blankable (column "receipt_description" (CharField 90)) ].

Definition Form460ScheduleIItem : model :=
  current_item "Form460ScheduleIItem" Form460ScheduleIItemBase
    "misc_cash_increases" false.
Definition Form460ScheduleIItemVersion : model :=
  version_item "Form460ScheduleIItemVersion" Form460ScheduleIItemBase
    "misc_cash_increases".

Definition current_item_models : list model :=
  [ Form460ScheduleAItem; Form460ScheduleCItem; Form460ScheduleDItem;
    Form460ScheduleEItem; Form460ScheduleESubItem; Form460ScheduleGItem;
    Form460ScheduleIItem ].

Definition version_item_models : list model :=
  [ Form460ScheduleAItemVersion; Form460ScheduleCItemVersion;
    Form460ScheduleDItemVersion; Form460ScheduleEItemVersion;
    Form460ScheduleESubItemVersion; Form460ScheduleGItemVersion;
    Form460ScheduleIItemVersion ].

(** All concrete models, in declaration order. *)
Definition schema : list model :=
  [ Form460Filing; Form460FilingVersion;
    Form460ScheduleAItem; Form460ScheduleAItemVersion;
    Form460ScheduleCItem; Form460ScheduleCItemVersion;
    Form460ScheduleDItem; Form460ScheduleDItemVersion;
    Form460ScheduleEItem; Form460ScheduleEItemVersion;
    Form460ScheduleESubItem; Form460ScheduleESubItemVersion;
    Form460ScheduleGItem; Form460ScheduleGItemVersion;
    Form460ScheduleIItem; Form460ScheduleIItemVersion ].

(** ** Tables and stores *)

Record table : Type := Table {
  rows : list row;   (* in insertion order *)
  next_id : Z        (* next value of the [id] sequence *)
}.

Abbreviation store := (gmap string table).

Definition empty_table : table := Table [] 1.

Definition get_table (s : store) (m : model) : table :=
  default empty_table (s !! model_name m).

(** [Model.objects.all()] *)
Definition objects (s : store) (m : model) : list row :=
  rows (get_table s m).

Inductive error : Type :=
| NotNullViolation (column : string)          (* IntegrityError *)
| UniquenessViolation (columns : list string) (* IntegrityError *)
| ForeignKeyViolation (column : string)       (* IntegrityError *)
| ProtectedError
| DoesNotExist
| MultipleObjectsReturned
| AttributeError                              (* attribute of None *)
| RecursionError.

Inductive result (A : Type) : Type :=
| Ok (a : A)
| Err (e : error).
Arguments Ok {A} a.
Arguments Err {A} e.

Definition bind {A B : Type} (x : result A) (k : A -> result B) : result B :=
  match x with
  | Ok a => k a
  | Err e => Err e
  end.

Notation "'do' x <- a ; b" := (bind a (fun x => b))
  (at level 10, x name, a at level 100, b at level 200).

(** ** Model options resolved by the ORM *)

(** A model without a primary-key field gets [id = AutoField(primary_key=True)]. *)
Definition auto_id : field := as_primary_key (column "id" AutoField).

Definition all_fields (m : model) : list field :=
  if existsb primary_key (fields m) then fields m else auto_id :: fields m.

Definition pk_field (m : model) : field :=
  default auto_id (find primary_key (all_fields m)).

Definition pk_name (m : model) : string := name (pk_field m).

Definition find_model (n : string) : option model :=
  find (fun m => String.eqb (model_name m) n) schema.

(** [Field.get_default] for a field declared without [default=]: the empty
    string where empty strings stand for "no data", [None] otherwise. *)
Definition get_default (f : field) : option value :=
  match kind f with
  | CharField _ => if null f then None else Some (VStr "")
  | _ => None
  end.

(** The model constructor with keyword arguments: a field left out takes
    its default. *)
Definition apply_defaults (l : list field) (kwargs : row) : row :=
  fold_right
    (fun f r =>
       match r !! name f, get_default f with
       | None, Some d => <[name f := d]> r
       | _, _ => r
       end)
    kwargs l.

Definition construct (m : model) (kwargs : row) : row :=
  apply_defaults (all_fields m) kwargs.

(** ** Insertion *)

(** An [AutoField] primary key left unset is drawn from the sequence. *)
Definition draws_id (m : model) (r : row) : bool :=
  match kind (pk_field m), r !! pk_name m with
  | AutoField, None => true
  | _, _ => false
  end.

Definition assign_pk (m : model) (t : table) (r : row) : row :=
  if draws_id m r then <[pk_name m := VInt (next_id t)]> r else r.

Definition is_missing (r : row) (f : field) : bool :=
  negb (null f) && bool_decide (r !! name f = None).

Definition not_null_violation (m : model) (r : row) : option string :=
  name <$> find (is_missing r) (all_fields m).

(** The primary key, then every [unique_together] set. *)
Definition unique_sets (m : model) : list (list string) :=
  [pk_name m] :: unique_together m.

(** Two rows collide on a column set when every column is non-NULL in both
    and equal: a NULL component never collides. *)
Definition same_key (u : list string) (r r' : row) : bool :=
  forallb
    (fun c =>
       match r !! c, r' !! c with
       | Some a, Some b => bool_decide (a = b)
       | _, _ => false
       end)
    u.

Definition unique_violation (m : model) (t : table) (r : row)
    : option (list string) :=
  find (fun u => existsb (same_key u r) (rows t)) (unique_sets m).

Definition has_pk (s : store) (m : model) (v : value) : bool :=
  existsb (fun r => bool_decide (r !! pk_name m = Some v)) (objects s m).

(** Only a foreign key with [db_constraint=True] is checked by the storage. *)
Definition dangling (s : store) (r : row) (f : field) : bool :=
  match kind f, r !! name f with
  | ForeignKey to _ true _, Some v =>
      match find_model to with
      | Some m' => negb (has_pk s m' v)
      | None => true
      end
  | _, _ => false
  end.

Definition foreign_key_violation (s : store) (m : model) (r : row)
    : option string :=
  name <$> find (dangling s r) (all_fields m).

Definition add_row (m : model) (r0 : row) (t : table) : table :=
  Table (rows t ++ [assign_pk m t r0])
        (if draws_id m r0 then next_id t + 1 else next_id t).

(** [Model.save(force_insert=True)] *)
Definition insert (s : store) (m : model) (r0 : row) : result store :=
  let t := get_table s m in
  let r := assign_pk m t r0 in
  match not_null_violation m r with
  | Some c => Err (NotNullViolation c)
  | None =>
    match unique_violation m t r with
    | Some u => Err (UniquenessViolation u)
    | None =>
      match foreign_key_violation s m r with
      | Some c => Err (ForeignKeyViolation c)
      | None => Ok (<[model_name m := add_row m r0 t]> s)
      end
    end
  end.

(** [Model.objects.create] with keyword arguments *)
Definition create (s : store) (m : model) (kwargs : row) : result store :=
  insert s m (construct m kwargs).

(** The store after an attempted write: a failed write leaves it as it was. *)
Definition after (s : store) (w : result store) : store :=
  match w with
  | Ok s' => s'
  | Err _ => s
  end.

(** ** Deletion *)

(** The foreign keys of the schema that point at model [m]. *)
Definition referrers (m : model) : list (model * field) :=
  flat_map
    (fun m' =>
       flat_map
         (fun f =>
            match kind f with
            | ForeignKey to _ _ _ =>
                if String.eqb to (model_name m) then [(m', f)] else []
            | _ => []
            end)
         (all_fields m'))
    schema.

Definition on_delete_of (f : field) : on_delete_policy :=
  match kind f with
  | ForeignKey _ _ _ p => p
  | _ => DO_NOTHING
  end.

(** Column [c] of [r] holds one of the keys [pks]. *)
Definition refers_to (c : string) (pks : list value) (r : row) : bool :=
  match r !! c with
  | Some v => bool_decide (v ∈ pks)
  | None => false
  end.

Definition null_out (c : string) (pks : list value) (r : row) : row :=
  if refers_to c pks r then delete c r else r.

Definition set_null (c : string) (pks : list value) (t : table) : table :=
  Table (null_out c pks <$> rows t) (next_id t).

Definition remove_rows (c : string) (pks : list value) (t : table) : table :=
  Table (List.filter (fun r => negb (refers_to c pks r)) (rows t)) (next_id t).

Definition referring_pks (s : store) (m' : model) (c : string)
    (pks : list value) : list value :=
  omap (fun r => if refers_to c pks r then r !! pk_name m' else None)
       (objects s m').

(** A loop over [l] that stops at the first error. *)
Definition fold_result {A B : Type} (f : A -> B -> result A) (l : list B) (a : A)
    : result A :=
  fold_left (fun acc b => do a' <- acc; f a' b) l (Ok a).

(** What the collector does for one foreign key [mf] pointing at the rows
    [pks] being deleted; [rec] deletes the rows a cascade reaches. *)
Definition collect_one (rec : store -> model -> list value -> result store)
    (pks : list value) (s : store) (mf : model * field) : result store :=
  match on_delete_of (snd mf) with
  | SET_NULL =>
      Ok (alter (set_null (name (snd mf)) pks) (model_name (fst mf)) s)
  | CASCADE =>
      rec s (fst mf) (referring_pks s (fst mf) (name (snd mf)) pks)
  | PROTECT =>
      if existsb (refers_to (name (snd mf)) pks) (objects s (fst mf))
      then Err ProtectedError
      else Ok s
  | DO_NOTHING => Ok s
  end.

(** The deletion collector: every foreign key pointing at the deleted rows
    is handled by its [on_delete] policy, then the rows are removed. *)
Fixpoint delete_rows (fuel : nat) (s : store) (m : model) (pks : list value)
    : result store :=
  match fuel with
  | O => Err RecursionError
  | S fuel' =>
      do s1 <- fold_result (collect_one (delete_rows fuel') pks) (referrers m) s;
      Ok (alter (remove_rows (pk_name m) pks) (model_name m) s1)
  end.

(** [instance.delete()] for the row of [m] with primary key [pk]. A chain
    of cascades is no longer than the schema. *)
Definition delete_instance (s : store) (m : model) (pk : value) : result store :=
  delete_rows (length schema) s m [pk].

(** Nulling, for the rows [pks] of a model, every column that refers to
    them: what the collector does where all referring keys are SET_NULL. *)
Definition set_null_all (pks : list value) (l : list (model * field)) (s : store)
    : store :=
  fold_left
    (fun s' mf => alter (set_null (name (snd mf)) pks) (model_name (fst mf)) s')
    l s.

(** ** Queries *)

Definition matches (conds : list (string * value)) (r : row) : bool :=
  forallb (fun kv => bool_decide (r !! fst kv = Some (snd kv))) conds.

(** [Model.objects.filter] with keyword conditions *)
Definition objects_filter (s : store) (m : model)
    (conds : list (string * value)) : list row :=
  List.filter (matches conds) (objects s m).

(** [Model.objects.get] with keyword conditions *)
Definition objects_get (s : store) (m : model)
    (conds : list (string * value)) : result row :=
  match objects_filter s m conds with
  | [] => Err DoesNotExist
  | [r] => Ok r
  | _ :: _ :: _ => Err MultipleObjectsReturned
  end.

(** ** String representations *)

Definition pad2 (n : Z) : string :=
  if (n <? 10)%Z then "0" +:+ pretty n else pretty n.

Definition pad4 (n : Z) : string :=
  if (n <? 10)%Z then "000" +:+ pretty n
  else if (n <? 100)%Z then "00" +:+ pretty n
  else if (n <? 1000)%Z then "0" +:+ pretty n
  else pretty n.

(** [str(v)], and ['%s' % v] *)
Definition py_str (o : option value) : string :=
  match o with
  | None => "None"
  | Some (VInt z) => pretty z
  | Some (VDate y m d) => pad4 y +:+ "-" +:+ pad2 m +:+ "-" +:+ pad2 d
  | Some (VDecimal h) =>
      (if (h <? 0)%Z then "-" else "") +:+
      pretty (Z.abs h / 100)%Z +:+ "." +:+ pad2 (Z.abs h mod 100)%Z
  | Some (VStr x) => x
  end.

(** The related-object descriptor of a foreign key: [None] when the column
    is NULL, else the referenced instance, fetched by primary key. *)
Definition related (s : store) (to : model) (c : string) (r : row)
    : result (option row) :=
  match r !! c with
  | None => Ok None
  | Some v => do o <- objects_get s to [(pk_name to, v)]; Ok (Some o)
  end.

(** [Form460Filing.__str__] *)
Definition Form460Filing_str (r : row) : string :=
  py_str (r !! "filing_id").

(** ['%s' % obj] for an optional [Form460Filing] instance *)
Definition filing_or_None_str (o : option row) : string :=
  match o with
  | None => "None"
  | Some f => Form460Filing_str f
  end.

(** [Form460FilingVersion.__str__] *)
Definition Form460FilingVersion_str (s : store) (r : row) : result string :=
  do f <- related s Form460Filing "filing" r;
  Ok (filing_or_None_str f +:+ "-" +:+ py_str (r !! "amend_id")).

(** [__str__] of every itemized model of the current tier *)
Definition current_item_str (s : store) (r : row) : result string :=
  do f <- related s Form460Filing "filing" r;
  Ok (filing_or_None_str f +:+ "-" +:+ py_str (r !! "line_item")).

(** [__str__] of every itemized model of the version tier: it reads
    [self.filing_version.filing_id] and [self.filing_version.amend_id],
    the first being the raw column of the version's [filing] key. *)
Definition version_item_str (s : store) (r : row) : result string :=
  do fv <- related s Form460FilingVersion "filing_version" r;
  match fv with
  | None => Err AttributeError
  | Some v =>
      Ok (py_str (v !! "filing") +:+ "-" +:+ py_str (v !! "amend_id")
          +:+ "-" +:+ py_str (r !! "line_item"))
  end.

(** ** Columns a writer has to supply *)

(** The declared columns that are NOT NULL and have no default to fall
    back on. *)
Definition required_columns (m : model) : list string :=
  name <$> List.filter
             (fun f => negb (null f) && bool_decide (get_default f = None))
             (fields m).

(** Row [r] has a value in each of the columns [cs]. *)
Definition supplies (r : row) (cs : list string) : bool :=
  forallb (fun c => bool_decide (is_Some (r !! c))) cs.

(** What the ORM's system checks guarantee of a model: field names are
    not repeated, and an [AutoField] is only ever the implicit [id]. *)
Definition well_formed (m : model) : bool :=
  bool_decide (NoDup (name <$> all_fields m)) &&
  forallb (fun f => match kind f with AutoField => false | _ => true end)
          (fields m).

(** The nullable reference of a model to its parent, if it has one. *)
Definition parent_column (m : model) : option string :=
  name <$> find
             (fun f => match kind f with ForeignKey _ _ _ _ => true | _ => false end)
             (fields m).

(** The nullable totals of the summary page. *)
Definition summary_totals : list string :=
  name <$> List.filter null Form460FilingBase.

(** ** Histories of writes *)

Inductive op : Type :=
| Insert (m : model) (r : row)
| Delete (m : model) (pk : value).

Definition op_model (o : op) : model :=
  match o with
  | Insert m _ => m
  | Delete m _ => m
  end.

Definition step (s : store) (o : op) : result store :=
  match o with
  | Insert m r => insert s m r
  | Delete m pk => delete_instance s m pk
  end.

(** The stores that successful insertions and deletions on the models of
    the schema produce from the empty store. *)
Inductive reachable : store -> Prop :=
| reachable_empty : reachable ∅
| reachable_step (s s' : store) (o : op) :
    reachable s -> In (op_model o) schema -> step s o = Ok s' -> reachable s'.

(** No two rows of [l] collide on the column set [u]. *)
Fixpoint distinct_on (u : list string) (l : list row) : bool :=
  match l with
  | [] => true
  | r :: l' => forallb (fun r' => negb (same_key u r r')) l' && distinct_on u l'
  end.

(** Every key of every model is respected by the rows of its table. *)
Definition unique_ok (s : store) : Prop :=
  forall m u, In m schema -> In u (unique_sets m) ->
    distinct_on u (objects s m) = true.

(** Every present [filing_version] of a stored item names a stored
    version. *)
Definition versions_resolve (s : store) : Prop :=
  forall m r vid,
    In m version_item_models -> In r (objects s m) ->
    r !! "filing_version" = Some vid ->
    has_pk s Form460FilingVersion vid = true.

(** What the declarations of a model with the parent reference [pc] settle
    by themselves: the key is the implicit [id], every [unique_together]
    set contains [pc], neither [pc] nor [id] has a default, and [pc] is
    the only foreign key. *)
Definition parent_reference_shape (m : model) (pc : string) : bool :=
  String.eqb (pk_name m) "id" &&
  match kind (pk_field m) with AutoField => true | _ => false end &&
  negb (String.eqb pc "id") &&
  forallb (fun u => existsb (String.eqb pc) u) (unique_together m) &&
  forallb (fun f => if String.eqb (name f) pc || String.eqb (name f) "id"
                    then bool_decide (get_default f = None) else true)
          (all_fields m) &&
  forallb (fun f => match kind f with
                    | ForeignKey _ _ _ _ => String.eqb (name f) pc
                    | _ => true
                    end)
          (all_fields m).

(** ** The filing tier's operations *)

(** The two operations of the filing tier belong to the loading pipeline,
    which is not in form460.py; they are written here after section 4.1 of
    the specification. *)













(** ** The scenario of the specification *)

Definition filing_1001 : row :=
  list_to_map
    [ ("filing_id", VInt 1001); ("amendment_count", VInt 0);
      ("from_date", VDate 2020 1 1); ("thru_date", VDate 2020 6 30);
      ("monetary_contributions", VInt 5000) ].

Definition version_1001_0 : row :=
  list_to_map
    [ ("filing", VInt 1001); ("amend_id", VInt 0);
      ("from_date", VDate 2020 1 1); ("thru_date", VDate 2020 6 30);
      ("monetary_contributions", VInt 5000) ].

(** 2500.00 *)
Definition item_1001_1 : row :=
  list_to_map
    [ ("filing", VInt 1001); ("line_item", VInt 1);
      ("amount", VDecimal 250000) ].

(** A Schedule A item of the version tier, attached to the version whose
    [id] is 1. *)
Definition item_version_1_7 : row :=
  list_to_map
    [ ("filing_version", VInt 1); ("line_item", VInt 7);
      ("amount", VDecimal 250000) ].

Definition scenario : result store :=
  do s1 <- create ∅ Form460Filing filing_1001;
  do s2 <- create s1 Form460FilingVersion version_1001_0;
  create s2 Form460ScheduleAItem item_1001_1.



(** ** Further invariants of stored rows *)

(** Every stored row has a value in each NOT NULL column of its model. *)
Definition not_null_ok (s : store) : Prop :=
  forall m r, In m schema -> In r (objects s m) ->
    not_null_violation m r = None.

(** The itemized models of the current tier whose [filing] reference
    carries a storage constraint. *)
Definition constrained_current_item_models : list model :=
  List.filter
    (fun m => existsb
                (fun f => match kind f with
                          | ForeignKey _ _ true _ => true
                          | _ => false
                          end)
                (fields m))
    current_item_models.

(** Every present [filing] of a stored item of those models names a stored
    summary row. *)
Definition filings_resolve (s : store) : Prop :=
  forall m r fid,
    In m constrained_current_item_models -> In r (objects s m) ->
    r !! "filing" = Some fid ->
    has_pk s Form460Filing fid = true.

(** The default a column of [m] takes when the constructor is not given
    it. *)
Definition default_of (m : model) (c : string) : option value :=
  match find (fun f => String.eqb (name f) c) (all_fields m) with
  | Some f => get_default f
  | None => None
  end.

(** * Properties *)

(** Closed facts about the schema and about given stores are settled by
    evaluation. *)
Ltac by_evaluation :=
  lazymatch goal with
  | |- ?a = ?b => exact (@eq_refl _ a <: a = b)
  end.

(** The table holds exactly the row in question. *)
Ltac only_row :=
  lazymatch goal with
  | |- In ?r ?l => replace l with [r] by by_evaluation; exact (or_introl eq_refl)
  end.

(** ** Reading a table of a written store *)

Lemma get_table_insert_eq (s : store) (m : model) (t : table) :
  get_table (<[model_name m := t]> s) m = t.
Proof. unfold get_table. by rewrite lookup_insert_eq. Qed.

Lemma get_table_insert_ne (s : store) (m m' : model) (t : table) :
  model_name m ≠ model_name m' ->
  get_table (<[model_name m := t]> s) m' = get_table s m'.
Proof. intros Hne. unfold get_table. by rewrite lookup_insert_ne. Qed.

Lemma get_table_alter_eq (f : table -> table) (s : store) (m : model) :
  f empty_table = empty_table ->
  get_table (alter f (model_name m) s) m = f (get_table s m).
Proof.
  intros Hf. unfold get_table. rewrite lookup_alter_eq.
  destruct (s !! model_name m); simpl; congruence.
Qed.

Lemma get_table_alter_ne (f : table -> table) (s : store) (m m' : model) :
  model_name m ≠ model_name m' ->
  get_table (alter f (model_name m) s) m' = get_table s m'.
Proof. intros Hne. unfold get_table. by rewrite lookup_alter_ne. Qed.

(** What a successful insertion has checked and written. *)
Lemma insert_Ok (s s' : store) (m : model) (r : row) :
  insert s m r = Ok s' ->
  not_null_violation m (assign_pk m (get_table s m) r) = None /\
  unique_violation m (get_table s m) (assign_pk m (get_table s m) r) = None /\
  foreign_key_violation s m (assign_pk m (get_table s m) r) = None /\
  s' = <[model_name m := add_row m r (get_table s m)]> s.
Proof.
  unfold insert.
  destruct (not_null_violation _ _); [discriminate |].
  destruct (unique_violation _ _ _); [discriminate |].
  destruct (foreign_key_violation _ _ _); [discriminate |].
  intros [= <-]. auto.
Qed.

Lemma insert_checks (s : store) (m : model) (r : row) :
  not_null_violation m (assign_pk m (get_table s m) r) = None ->
  unique_violation m (get_table s m) (assign_pk m (get_table s m) r) = None ->
  foreign_key_violation s m (assign_pk m (get_table s m) r) = None ->
  insert s m r = Ok (<[model_name m := add_row m r (get_table s m)]> s).
Proof. intros H1 H2 H3. unfold insert. by rewrite H1, H2, H3. Qed.

Lemma objects_insert (s s' : store) (m : model) (r : row) :
  insert s m r = Ok s' ->
  objects s' m = objects s m ++ [assign_pk m (get_table s m) r].
Proof.
  intros (_ & _ & _ & ->)%insert_Ok.
  unfold objects. by rewrite get_table_insert_eq.
Qed.

Lemma objects_create (s s' : store) (m : model) (kwargs : row) :
  create s m kwargs = Ok s' ->
  objects s' m = objects s m ++ [assign_pk m (get_table s m) (construct m kwargs)].
Proof. unfold create. apply objects_insert. Qed.

Lemma objects_insert_ne (s s' : store) (m m' : model) (r : row) :
  insert s m r = Ok s' ->
  model_name m ≠ model_name m' ->
  objects s' m' = objects s m'.
Proof.
  intros (_ & _ & _ & ->)%insert_Ok Hne.
  unfold objects. by rewrite get_table_insert_ne.
Qed.

(** ** The scenario *)

(** C8: from the empty store, creating the summary row of filing 1001 with
    [amendment_count] 0, its version 0 and the Schedule A item
    (1001, line 1, 2500.00) succeeds; the lookup by (filing, line_item) =
    (1001, 1) on the Schedule A table of the current tier then returns
    exactly one row, whose amount is 2500.00, and the summary row of 1001
    still has [amendment_count] 0. *)
Theorem scenario_lookup :
  (do s <- scenario;
   Ok (objects_filter s Form460ScheduleAItem
         [("filing", VInt 1001); ("line_item", VInt 1)]))
    = Ok [ <["id" := VInt 1]> item_1001_1 ] /\
  (<["id" := VInt 1]> item_1001_1 : row) !! "amount" = Some (VDecimal 250000) /\
  py_str (Some (VDecimal 250000)) = "2500.00" /\
  (do s <- scenario;
   do summary <- objects_get s Form460Filing [("filing_id", VInt 1001)];
   Ok (summary !! "amendment_count"))
    = Ok (Some (VInt 0)).
Proof. repeat split; by_evaluation. Qed.

(** ** The checks of an insertion *)

Lemma not_null_violation_None (m : model) (r : row) :
  not_null_violation m r = None <->
  forall f, In f (all_fields m) -> null f = false -> is_Some (r !! name f).
Proof.
  unfold not_null_violation. split.
  - intros H f Hf Hnull.
    destruct (find (is_missing r) (all_fields m)) eqn:E; [discriminate |].
    pose proof (find_none _ _ E f Hf) as Hm. unfold is_missing in Hm.
    rewrite Hnull in Hm. simpl in Hm.
    apply bool_decide_eq_false in Hm.
    destruct (r !! name f); [eauto | done].
  - intros H.
    destruct (find (is_missing r) (all_fields m)) as [g |] eqn:E; [| done].
    apply find_some in E as [Hg Hm]. unfold is_missing in Hm.
    apply andb_true_iff in Hm as [Hnull Hm].
    apply negb_true_iff in Hnull. apply bool_decide_eq_true in Hm.
    destruct (H g Hg Hnull) as [v Hv]. congruence.
Qed.

Lemma not_null_violation_Some (m : model) (r : row) (f : field) :
  In f (all_fields m) -> null f = false -> r !! name f = None ->
  exists c, not_null_violation m r = Some c.
Proof.
  intros Hf Hnull Hr.
  destruct (not_null_violation m r) eqn:E; [eauto |].
  destruct (proj1 (not_null_violation_None m r) E f Hf Hnull). congruence.
Qed.

Lemma same_key_true (u : list string) (r r' : row) :
  same_key u r r' = true <->
  forall c, In c u -> exists v, r !! c = Some v /\ r' !! c = Some v.
Proof.
  unfold same_key. rewrite forallb_forall. split; intros H c Hc.
  - specialize (H c Hc).
    destruct (r !! c) as [a |]; [| discriminate].
    destruct (r' !! c) as [b |]; [| discriminate].
    apply bool_decide_eq_true in H. subst. eauto.
  - destruct (H c Hc) as (v & -> & ->). by apply bool_decide_eq_true.
Qed.

Lemma same_key_sym (u : list string) (r r' : row) :
  same_key u r r' = same_key u r' r.
Proof.
  apply eq_true_iff_eq. rewrite !same_key_true.
  split; intros H c Hc; destruct (H c Hc) as (v & ? & ?); eauto.
Qed.

(** A NULL component takes a row out of the reach of the constraint. *)
Lemma same_key_null (u : list string) (r r' : row) (c : string) :
  In c u -> r !! c = None -> same_key u r r' = false.
Proof.
  intros Hc Hr. apply not_true_is_false. intros H.
  destruct (proj1 (same_key_true u r r') H c Hc) as (v & ? & _). congruence.
Qed.

Lemma unique_violation_None (m : model) (t : table) (r : row) :
  unique_violation m t r = None <->
  forall u r', In u (unique_sets m) -> In r' (rows t) -> same_key u r r' = false.
Proof.
  unfold unique_violation. split.
  - intros H u r' Hu Hr'.
    pose proof (find_none _ _ H u Hu) as Hn. simpl in Hn.
    apply not_true_is_false. intros Hk.
    assert (existsb (same_key u r) (rows t) = true) as Hx
      by (apply existsb_exists; eauto).
    congruence.
  - intros H.
    destruct (find _ (unique_sets m)) as [u |] eqn:E; [| done].
    apply find_some in E as [Hu Hx].
    apply existsb_exists in Hx as (r' & Hr' & Hk).
    rewrite (H u r' Hu Hr') in Hk. discriminate.
Qed.

Lemma unique_violation_Some (m : model) (t : table) (r r' : row)
    (u : list string) :
  In u (unique_sets m) -> In r' (rows t) -> same_key u r r' = true ->
  exists u', unique_violation m t r = Some u'.
Proof.
  intros Hu Hr' Hk.
  destruct (unique_violation m t r) eqn:E; [eauto |].
  rewrite (proj1 (unique_violation_None m t r) E u r' Hu Hr') in Hk.
  discriminate.
Qed.

Lemma foreign_key_violation_None (s : store) (m : model) (r : row) :
  foreign_key_violation s m r = None <->
  forall f, In f (all_fields m) -> dangling s r f = false.
Proof.
  unfold foreign_key_violation. split.
  - intros H f Hf.
    destruct (find (dangling s r) (all_fields m)) eqn:E; [discriminate |].
    exact (find_none _ _ E f Hf).
  - intros H.
    destruct (find (dangling s r) (all_fields m)) as [g |] eqn:E; [| done].
    apply find_some in E as [Hg Hd]. rewrite (H _ Hg) in Hd. discriminate.
Qed.

(** Every failed write leaves the store as it was. *)
Lemma after_Err (s : store) (e : error) : after s (Err e) = s.
Proof. reflexivity. Qed.

(** ** Construction and key assignment *)

Lemma schema_well_formed (m : model) :
  In m schema -> well_formed m = true.
Proof.
  assert (forallb well_formed schema = true) as H by by_evaluation.
  intros Hm. exact (proj1 (forallb_forall _ _) H m Hm).
Qed.

Lemma all_fields_incl (m : model) (f : field) :
  In f (fields m) -> In f (all_fields m).
Proof.
  unfold all_fields. destruct (existsb primary_key (fields m)); simpl; auto.
Qed.

Lemma all_fields_inv (m : model) (f : field) :
  In f (all_fields m) ->
  In f (fields m) \/ (f = auto_id /\ pk_field m = auto_id).
Proof.
  unfold pk_field, all_fields.
  destruct (existsb primary_key (fields m)); simpl; [auto |].
  intros [<- | Hf]; auto.
Qed.

Lemma pk_field_all_fields (m : model) : In (pk_field m) (all_fields m).
Proof.
  unfold pk_field.
  destruct (find primary_key (all_fields m)) as [f |] eqn:E; simpl.
  - by apply find_some in E as [? _].
  - unfold all_fields in *.
    destruct (existsb primary_key (fields m)) eqn:Ex; [| simpl in E; discriminate].
    apply existsb_exists in Ex as (f & Hf & Hpk).
    rewrite (find_none _ _ E f Hf) in Hpk. discriminate.
Qed.

Lemma apply_defaults_Some (l : list field) (kwargs : row) (c : string) (v : value) :
  kwargs !! c = Some v -> apply_defaults l kwargs !! c = Some v.
Proof.
  intros Hc. induction l as [| f l IH]; simpl; [done |].
  destruct (apply_defaults l kwargs !! name f) eqn:E; [done |].
  destruct (get_default f); [| done].
  rewrite lookup_insert_ne; [done | congruence].
Qed.

Lemma apply_defaults_None (l : list field) (kwargs : row) (c : string) :
  kwargs !! c = None ->
  (forall f, In f l -> name f = c -> get_default f = None) ->
  apply_defaults l kwargs !! c = None.
Proof.
  intros Hc. induction l as [| f l IH]; simpl; intros Hl; [done |].
  assert (apply_defaults l kwargs !! c = None) as Hrec by auto.
  destruct (apply_defaults l kwargs !! name f) eqn:E; [done |].
  destruct (get_default f) eqn:Ed; [| done].
  rewrite lookup_insert_ne; [done |].
  intros Hn. rewrite (Hl f (or_introl eq_refl) Hn) in Ed. discriminate.
Qed.

Lemma apply_defaults_default (l : list field) (kwargs : row) (f : field) (d : value) :
  In f l -> get_default f = Some d ->
  is_Some (apply_defaults l kwargs !! name f).
Proof.
  intros Hf Hd. induction l as [| g l IH]; simpl; [destruct Hf |].
  destruct Hf as [-> | Hf].
  - rewrite Hd. destruct (apply_defaults l kwargs !! name f) eqn:E.
    + rewrite E. eauto.
    + rewrite lookup_insert_eq. eauto.
  - specialize (IH Hf).
    destruct (apply_defaults l kwargs !! name g) eqn:E; [done |].
    destruct (get_default g); [| done].
    destruct (decide (name g = name f)) as [-> | Hne].
    + rewrite lookup_insert_eq. eauto.
    + by rewrite lookup_insert_ne.
Qed.

(** A model all of whose fields lack a default is constructed as given. *)
Lemma apply_defaults_id (l : list field) (kwargs : row) :
  (forall f, In f l -> get_default f = None) ->
  apply_defaults l kwargs = kwargs.
Proof.
  induction l as [| f l IH]; simpl; intros Hl; [done |].
  rewrite IH by auto. rewrite (Hl f) by auto.
  by destruct (kwargs !! name f).
Qed.

Lemma construct_id (m : model) (kwargs : row) :
  forallb (fun f => bool_decide (get_default f = None)) (all_fields m) = true ->
  construct m kwargs = kwargs.
Proof.
  intros H. apply apply_defaults_id. intros f Hf.
  exact (bool_decide_eq_true_1 _ (proj1 (forallb_forall _ _) H f Hf)).
Qed.

Lemma assign_pk_Some (m : model) (t : table) (r : row) (c : string) (v : value) :
  r !! c = Some v -> assign_pk m t r !! c = Some v.
Proof.
  intros Hc. unfold assign_pk, draws_id.
  destruct (kind (pk_field m)); try done.
  destruct (r !! pk_name m) eqn:E; [done |].
  rewrite lookup_insert_ne; [done | congruence].
Qed.

Lemma assign_pk_ne (m : model) (t : table) (r : row) (c : string) :
  c ≠ pk_name m -> assign_pk m t r !! c = r !! c.
Proof.
  intros Hc. unfold assign_pk.
  destruct (draws_id m r); [| done]. by rewrite lookup_insert_ne.
Qed.

Lemma assign_pk_not_auto (m : model) (t : table) (r : row) :
  kind (pk_field m) ≠ AutoField -> assign_pk m t r = r.
Proof.
  intros Hk. unfold assign_pk, draws_id.
  destruct (kind (pk_field m)); done.
Qed.

Lemma assign_pk_auto (m : model) (t : table) (r : row) :
  kind (pk_field m) = AutoField -> is_Some (assign_pk m t r !! pk_name m).
Proof.
  intros Hk. unfold assign_pk, draws_id. rewrite Hk.
  destruct (r !! pk_name m) eqn:E.
  - rewrite E. eauto.
  - rewrite lookup_insert_eq. eauto.
Qed.

Lemma supplies_true (r : row) (cs : list string) :
  supplies r cs = true <-> forall c, In c cs -> is_Some (r !! c).
Proof.
  unfold supplies. rewrite forallb_forall.
  split; intros H c Hc; specialize (H c Hc).
  - by apply bool_decide_eq_true in H.
  - by apply bool_decide_eq_true.
Qed.

Lemma required_columns_In (m : model) (c : string) :
  In c (required_columns m) <->
  exists f, In f (fields m) /\ name f = c /\ null f = false /\
            get_default f = None.
Proof.
  unfold required_columns. rewrite <- list_elem_of_In, list_elem_of_fmap.
  split.
  - intros (f & -> & Hf). apply list_elem_of_In, filter_In in Hf as [Hf Hb].
    apply andb_true_iff in Hb as [Hn Hd].
    apply negb_true_iff in Hn. apply bool_decide_eq_true in Hd. eauto.
  - intros (f & Hf & <- & Hn & Hd). exists f. split; [done |].
    apply list_elem_of_In, filter_In. split; [done |].
    rewrite Hn. simpl. by apply bool_decide_eq_true.
Qed.

(** A constructed instance that was given every required column passes the
    NOT NULL check. *)
Lemma supplies_not_null (m : model) (t : table) (kwargs : row) :
  well_formed m = true ->
  supplies kwargs (required_columns m) = true ->
  not_null_violation m (assign_pk m t (construct m kwargs)) = None.
Proof.
  intros Hwf Hs. apply not_null_violation_None. intros f Hf Hnull.
  apply andb_true_iff in Hwf as [_ Hauto].
  destruct (all_fields_inv m f Hf) as [Hin | [-> Hpk]].
  - destruct (get_default f) as [d |] eqn:Hd.
    + destruct (apply_defaults_default (all_fields m) kwargs f d Hf Hd) as [v Hv].
      exists v. by apply assign_pk_Some.
    + assert (In (name f) (required_columns m)) as Hreq
        by (apply required_columns_In; eauto).
      destruct (proj1 (supplies_true _ _) Hs _ Hreq) as [v Hv].
      exists v. apply assign_pk_Some. by apply apply_defaults_Some.
  - replace (name auto_id) with (pk_name m) by (unfold pk_name; by rewrite Hpk).
    apply assign_pk_auto. by rewrite Hpk.
Qed.

Lemma NoDup_name_eq (l : list field) (f g : field) :
  NoDup (name <$> l) -> In f l -> In g l -> name f = name g -> f = g.
Proof.
  induction l as [| h l IH]; simpl; [done |].
  intros [Hh Hl]%NoDup_cons [<- | Hf] [<- | Hg] Hn; auto.
  - exfalso. apply Hh. rewrite Hn. apply list_elem_of_fmap_2.
    by apply list_elem_of_In.
  - exfalso. apply Hh. rewrite <- Hn. apply list_elem_of_fmap_2.
    by apply list_elem_of_In.
Qed.

(** A constructed instance that was not given a required column fails it. *)
Lemma omits_not_null (m : model) (t : table) (kwargs : row) (c : string) :
  well_formed m = true ->
  In c (required_columns m) -> kwargs !! c = None ->
  exists c', not_null_violation m (assign_pk m t (construct m kwargs)) = Some c'.
Proof.
  intros Hwf Hc Hk.
  apply andb_true_iff in Hwf as [Hnd Hauto].
  apply bool_decide_eq_true in Hnd.
  apply required_columns_In in Hc as (f & Hf & <- & Hnull & Hd).
  apply (not_null_violation_Some m _ f); [by apply all_fields_incl | done |].
  assert (apply_defaults (all_fields m) kwargs !! name f = None) as Hc.
  { apply apply_defaults_None; [done |]. intros g Hg Hn.
    rewrite (NoDup_name_eq _ g f Hnd Hg (all_fields_incl m f Hf) Hn). done. }
  unfold construct.
  destruct (decide (name f = pk_name m)) as [Heq | Hne].
  - rewrite assign_pk_not_auto; [done |].
    assert (f = pk_field m) as <-.
    { apply (NoDup_name_eq _ _ _ Hnd); auto using all_fields_incl, pk_field_all_fields. }
    pose proof (proj1 (forallb_forall _ _) Hauto f Hf) as Hk'. simpl in Hk'.
    intros E. rewrite E in Hk'. discriminate.
  - by rewrite assign_pk_ne.
Qed.

(** ** Creating rows *)

Lemma create_not_null (s : store) (m : model) (kwargs : row) (c : string) :
  well_formed m = true ->
  In c (required_columns m) -> kwargs !! c = None ->
  exists c', create s m kwargs = Err (NotNullViolation c').
Proof.
  intros Hwf Hc Hk.
  destruct (omits_not_null m (get_table s m) kwargs c Hwf Hc Hk) as [c' Hc'].
  exists c'. unfold create, insert. by rewrite Hc'.
Qed.

Lemma create_supplied (s : store) (m : model) (kwargs : row) (c : string) :
  well_formed m = true ->
  supplies kwargs (required_columns m) = true ->
  create s m kwargs ≠ Err (NotNullViolation c).
Proof.
  intros Hwf Hs. unfold create, insert.
  rewrite (supplies_not_null m (get_table s m) kwargs Hwf Hs).
  destruct (unique_violation _ _ _); [discriminate |].
  destruct (foreign_key_violation _ _ _); discriminate.
Qed.

(** A complete row that repeats a key of a stored row, every component of
    the key being present, is refused. *)
Lemma create_duplicate (s : store) (m : model) (kwargs r' : row)
    (u : list string) :
  well_formed m = true ->
  supplies kwargs (required_columns m) = true ->
  In u (unique_together m) ->
  In r' (objects s m) ->
  (forall c, In c u -> exists v, kwargs !! c = Some v /\ r' !! c = Some v) ->
  exists u', create s m kwargs = Err (UniquenessViolation u').
Proof.
  intros Hwf Hs Hu Hr' Hk.
  destruct (unique_violation_Some m (get_table s m)
              (assign_pk m (get_table s m) (construct m kwargs)) r' u)
    as [u' Hu'].
  - right. exact Hu.
  - exact Hr'.
  - apply same_key_true. intros c Hc. destruct (Hk c Hc) as (v & Hv & Hv').
    exists v. split; [| done].
    apply assign_pk_Some. by apply apply_defaults_Some.
  - exists u'. unfold create, insert.
    by rewrite (supplies_not_null m (get_table s m) kwargs Hwf Hs), Hu'.
Qed.

Lemma has_pk_false (s : store) (m : model) (v : value) :
  has_pk s m v = false <->
  forall r, In r (objects s m) -> r !! pk_name m ≠ Some v.
Proof.
  unfold has_pk. split.
  - intros H r Hr Hv.
    assert (existsb (fun r => bool_decide (r !! pk_name m = Some v))
              (objects s m) = true) as Hx.
    { apply existsb_exists. exists r. split; [done |].
      by apply bool_decide_eq_true. }
    congruence.
  - intros H. apply not_true_is_false. intros Hx.
    apply existsb_exists in Hx as (r & Hr & Hv).
    apply bool_decide_eq_true in Hv. by apply (H r).
Qed.

Lemma filter_nil_iff {A : Type} (p : A -> bool) (l : list A) :
  List.filter p l = [] <-> forall x, In x l -> p x = false.
Proof.
  induction l as [| a l IH]; simpl; [by split |].
  destruct (p a) eqn:E; split.
  - discriminate.
  - intros H. rewrite (H a) in E by auto. discriminate.
  - intros Hl x [<- | Hx]; [done | by apply IH].
  - intros H. apply IH. auto.
Qed.

Lemma matches_true (conds : list (string * value)) (r : row) :
  matches conds r = true <->
  forall c v, In (c, v) conds -> r !! c = Some v.
Proof.
  unfold matches. rewrite forallb_forall. split.
  - intros H c v Hc. specialize (H (c, v) Hc). by apply bool_decide_eq_true in H.
  - intros H [c v] Hc. apply bool_decide_eq_true. by apply H.
Qed.

Lemma has_pk_false_filter (s : store) (m : model) (v : value) :
  has_pk s m v = false ->
  objects_filter s m [(pk_name m, v)] = [].
Proof.
  intros H. apply filter_nil_iff. intros r Hr.
  apply not_true_is_false. intros Hm.
  apply (proj1 (has_pk_false s m v) H r Hr).
  apply (proj1 (matches_true _ r) Hm). by left.
Qed.

Lemma objects_filter_insert (s s' : store) (m : model) (r : row)
    (conds : list (string * value)) :
  insert s m r = Ok s' ->
  objects_filter s' m conds =
  objects_filter s m conds ++
  List.filter (matches conds) [assign_pk m (get_table s m) r].
Proof.
  intros H. unfold objects_filter.
  by rewrite (objects_insert s s' m r H), List.filter_app.
Qed.

(** ** Required fields *)

(** C7: an attempt to create a row of any model of the schema that leaves
    out one of its required columns is rejected with a NOT NULL violation
    and the store stays as it was; an attempt that supplies all of them is
    never rejected for a missing column.  The required columns are the
    filing identifier, the amendment count and both period bounds of a
    summary row, the amendment index and both period bounds of a version,
    and the line item and amount (fair market value on Schedule C) of an
    itemized row. *)
Theorem missing_required_field_rejected (s : store) (m : model) (kwargs : row) :
  In m schema ->
  (forall c, In c (required_columns m) -> kwargs !! c = None ->
     exists c', create s m kwargs = Err (NotNullViolation c') /\
                after s (create s m kwargs) = s) /\
  (supplies kwargs (required_columns m) = true ->
     forall c', create s m kwargs ≠ Err (NotNullViolation c')) /\
  required_columns Form460Filing =
    ["from_date"; "thru_date"; "filing_id"; "amendment_count"] /\
  required_columns Form460FilingVersion =
    ["from_date"; "thru_date"; "amend_id"] /\
  required_columns <$> current_item_models =
    [ ["line_item"; "amount"]; ["line_item"; "fair_market_value"];
      ["line_item"; "amount"]; ["line_item"; "amount"];
      ["line_item"; "amount"]; ["line_item"; "amount"];
      ["line_item"; "amount"] ] /\
  required_columns <$> version_item_models =
    required_columns <$> current_item_models.
Proof.
  intros Hm. pose proof (schema_well_formed m Hm) as Hwf.
  split; [| split; [| by vm_compute]].
  - intros c Hc Hk.
    destruct (create_not_null s m kwargs c Hwf Hc Hk) as [c' Hc'].
    exists c'. by rewrite Hc'.
  - intros Hs c'. by apply create_supplied.
Qed.

Lemma missing_required_field_rejected_witness :
  (exists c',
     create ∅ Form460Filing (delete "thru_date" filing_1001)
       = Err (NotNullViolation c')) /\
  (forall c', create ∅ Form460Filing filing_1001 ≠ Err (NotNullViolation c')).
Proof.
  split.
  - destruct (missing_required_field_rejected ∅ Form460Filing
                (delete "thru_date" filing_1001)) as (H & _).
    { simpl. auto. }
    destruct (H "thru_date") as (c' & Hc' & _).
    { simpl. auto. }
    { by_evaluation. }
    exists c'. exact Hc'.
  - destruct (missing_required_field_rejected ∅ Form460Filing filing_1001)
      as (_ & H & _).
    { simpl. auto. }
    apply H. by_evaluation.
Defined.

(** ** Absent totals *)

(** C6: a summary row created with its required columns and with every
    nullable total left absent is read back, by its filing identifier,
    exactly as it was written: each total is still absent, none has been
    turned into zero or another default. *)
Theorem absent_totals_round_trip (s : store) (kwargs : row) (fid : value) :
  kwargs !! "filing_id" = Some fid ->
  supplies kwargs (required_columns Form460Filing) = true ->
  (forall c, In c summary_totals -> kwargs !! c = None) ->
  has_pk s Form460Filing fid = false ->
  exists (s' : store) (r : row),
    create s Form460Filing kwargs = Ok s' /\
    objects_get s' Form460Filing [("filing_id", fid)] = Ok r /\
    r = kwargs /\
    (forall c, In c summary_totals -> r !! c = None).
Proof.
  intros Hid Hs Habs Hfresh.
  assert (construct Form460Filing kwargs = kwargs) as Hc
    by (apply construct_id; by_evaluation).
  assert (forall t, assign_pk Form460Filing t kwargs = kwargs) as Hpk.
  { intros t. by apply assign_pk_not_auto. }
  assert (insert s Form460Filing kwargs =
          Ok (<[model_name Form460Filing :=
                  add_row Form460Filing kwargs (get_table s Form460Filing)]> s))
    as Hins.
  { apply insert_checks.
    - rewrite <- Hc. apply supplies_not_null; [by vm_compute | done].
    - rewrite Hpk. apply unique_violation_None. intros u r' [<- | []] Hr'.
      apply not_true_is_false. intros Hk.
      destruct (proj1 (same_key_true _ _ _) Hk "filing_id") as (v & Hv & Hv');
        [by left |].
      apply (proj1 (has_pk_false s Form460Filing fid) Hfresh r' Hr').
      change (pk_name Form460Filing) with "filing_id". congruence.
    - reflexivity. }
  eexists _, kwargs. split; [unfold create; by rewrite Hc |].
  split; [| by auto].
  unfold objects_get.
  rewrite (objects_filter_insert s _ Form460Filing kwargs _ Hins).
  pose proof (has_pk_false_filter s Form460Filing fid Hfresh) as Hnone.
  change (pk_name Form460Filing) with "filing_id" in Hnone.
  rewrite Hnone, Hpk. simpl.
  unfold matches. simpl. rewrite Hid.
  by rewrite bool_decide_eq_true_2.
Qed.

Lemma absent_totals_round_trip_witness :
  exists (s' : store) (r : row),
    create ∅ Form460Filing (delete "monetary_contributions" filing_1001) = Ok s' /\
    objects_get s' Form460Filing [("filing_id", VInt 1001)] = Ok r /\
    r = delete "monetary_contributions" filing_1001 /\
    (forall c, In c summary_totals -> r !! c = None).
Proof.
  apply (absent_totals_round_trip ∅
           (delete "monetary_contributions" filing_1001) (VInt 1001)).
  - by_evaluation.
  - by_evaluation.
  - intros c Hc. simpl in Hc.
    repeat (destruct Hc as [<- | Hc]; [by_evaluation |]). destruct Hc.
  - by_evaluation.
Defined.

(** ** Parent references and the storage constraint *)

(** Only two of the fifteen parent references are declared with
    [db_constraint=False]. *)
Lemma unconstrained_references :
  List.filter
    (fun mf => match kind (snd mf) with
               | ForeignKey _ _ false _ => true
               | _ => false
               end)
    (flat_map referrers schema)
  = [ (Form460FilingVersion,
       nullable (column "filing"
         (ForeignKey "Form460Filing" "versions" false SET_NULL)));
      (Form460ScheduleIItem,
       nullable (column "filing"
         (ForeignKey "Form460Filing" "misc_cash_increases" false SET_NULL))) ].
Proof. by vm_compute. Qed.

(** C5, as stated, fails: the [filing] reference of a Schedule A item of
    the current tier carries a storage constraint, and the item of the
    scenario is refused while filing 1001 does not exist. *)
Lemma constrained_reference_rejects_dangling :
  has_pk ∅ Form460Filing (VInt 1001) = false /\
  item_1001_1 !! "filing" = Some (VInt 1001) /\
  create ∅ Form460ScheduleAItem item_1001_1 = Err (ForeignKeyViolation "filing").
Proof. by vm_compute. Qed.

(** C5, amended: the two parent references declared with
    [db_constraint=False], from a version to its filing and from a
    Schedule I item of the current tier to its filing, are not checked by
    the storage: a row that passes the NOT NULL and uniqueness checks is
    inserted although its [filing] points at no stored filing. *)
Theorem unconstrained_reference_accepts_dangling
    (s : store) (m : model) (kwargs : row) (v : value) :
  m = Form460FilingVersion \/ m = Form460ScheduleIItem ->
  kwargs !! "filing" = Some v ->
  has_pk s Form460Filing v = false ->
  supplies kwargs (required_columns m) = true ->
  unique_violation m (get_table s m)
    (assign_pk m (get_table s m) (construct m kwargs)) = None ->
  exists (s' : store) (r : row),
    create s m kwargs = Ok s' /\
    In r (objects s' m) /\
    r !! "filing" = Some v.
Proof.
  intros Hm Hf Hdangling Hs Hu.
  assert (well_formed m = true) as Hwf by (destruct Hm as [-> | ->]; by vm_compute).
  assert (forall r, foreign_key_violation s m r = None) as Hfk
    by (intros r; destruct Hm as [-> | ->]; reflexivity).
  pose proof (insert_checks s m (construct m kwargs)
                (supplies_not_null m _ kwargs Hwf Hs) Hu (Hfk _)) as Hins.
  fold (create s m kwargs) in Hins.
  eexists _, (assign_pk m (get_table s m) (construct m kwargs)).
  split; [exact Hins |]. split.
  - rewrite (objects_create _ _ _ _ Hins). apply in_or_app. right. by left.
  - apply assign_pk_Some. by apply apply_defaults_Some.
Qed.

Lemma unconstrained_reference_accepts_dangling_witness :
  exists (s' : store) (r : row),
    create ∅ Form460FilingVersion version_1001_0 = Ok s' /\
    In r (objects s' Form460FilingVersion) /\
    r !! "filing" = Some (VInt 1001).
Proof.
  apply (unconstrained_reference_accepts_dangling
           ∅ Form460FilingVersion version_1001_0 (VInt 1001)).
  - left. reflexivity.
  - by_evaluation.
  - by_evaluation.
  - by_evaluation.
  - by_evaluation.
Defined.

(** ** Duplicate versions *)

(** C2, as stated, fails: two versions with the same absent [filing] and
    the same [amend_id] are both inserted. *)
Lemma orphan_version_inserted_twice :
  (do s1 <- create ∅ Form460FilingVersion (delete "filing" version_1001_0);
   do s2 <- create s1 Form460FilingVersion (delete "filing" version_1001_0);
   Ok ((fun r => (r !! "id", r !! "filing", r !! "amend_id"))
         <$> objects s2 Form460FilingVersion))
  = Ok [ (Some (VInt 1), None, Some (VInt 0));
         (Some (VInt 2), None, Some (VInt 0)) ].
Proof. by_evaluation. Qed.

(** C2, amended: once a version with a present [filing] is stored, creating
    a second complete version with the same [filing] and the same
    [amend_id] fails with a uniqueness violation, and the store is left as
    the first insertion made it. *)
Theorem duplicate_version_rejected
    (s s1 : store) (v1 v2 : row) (f a : value) :
  create s Form460FilingVersion v1 = Ok s1 ->
  v1 !! "filing" = Some f -> v1 !! "amend_id" = Some a ->
  v2 !! "filing" = Some f -> v2 !! "amend_id" = Some a ->
  supplies v2 (required_columns Form460FilingVersion) = true ->
  exists u,
    create s1 Form460FilingVersion v2 = Err (UniquenessViolation u) /\
    after s1 (create s1 Form460FilingVersion v2) = s1.
Proof.
  intros H1 Hf1 Ha1 Hf2 Ha2 Hs.
  destruct (create_duplicate s1 Form460FilingVersion v2
              (assign_pk Form460FilingVersion
                 (get_table s Form460FilingVersion)
                 (construct Form460FilingVersion v1))
              ["filing"; "amend_id"]) as [u Hu].
  - by vm_compute.
  - exact Hs.
  - simpl. auto.
  - rewrite (objects_create _ _ _ _ H1). apply in_or_app. right. by left.
  - intros c [<- | [<- | []]].
    + exists f. split; [done |].
      apply assign_pk_Some. by apply apply_defaults_Some.
    + exists a. split; [done |].
      apply assign_pk_Some. by apply apply_defaults_Some.
  - exists u. by rewrite Hu.
Qed.

Lemma duplicate_version_rejected_witness :
  exists u,
    create (after ∅ (create ∅ Form460FilingVersion version_1001_0))
      Form460FilingVersion version_1001_0 = Err (UniquenessViolation u) /\
    after (after ∅ (create ∅ Form460FilingVersion version_1001_0))
      (create (after ∅ (create ∅ Form460FilingVersion version_1001_0))
         Form460FilingVersion version_1001_0)
    = after ∅ (create ∅ Form460FilingVersion version_1001_0).
Proof.
  apply (duplicate_version_rejected ∅ _ version_1001_0 version_1001_0
           (VInt 1001) (VInt 0)).
  - by_evaluation.
  - by_evaluation.
  - by_evaluation.
  - by_evaluation.
  - by_evaluation.
  - by_evaluation.
Defined.

(** ** Deletion, step by step *)

Lemma fold_result_Err {A B : Type} (f : A -> B -> result A) (l : list B) (e : error) :
  fold_left (fun acc b => do a' <- acc; f a' b) l (Err e) = Err e.
Proof. induction l as [| b l IH]; simpl; [done | exact IH]. Qed.

Lemma fold_result_cons {A B : Type} (f : A -> B -> result A) (b : B)
    (l : list B) (a : A) :
  fold_result f (b :: l) a = do a' <- f a b; fold_result f l a'.
Proof.
  unfold fold_result. simpl. destruct (f a b); simpl; [done |].
  apply fold_result_Err.
Qed.

Lemma fold_result_inv {A B : Type} (P : A -> Prop) (f : A -> B -> result A)
    (l : list B) :
  (forall a b a', P a -> f a b = Ok a' -> P a') ->
  forall a a', P a -> fold_result f l a = Ok a' -> P a'.
Proof.
  intros Hf. induction l as [| b l IH]; intros a a' Ha.
  - unfold fold_result. simpl. by intros [= <-].
  - rewrite fold_result_cons. destruct (f a b) as [a1 |] eqn:E; simpl; [| done].
    apply IH. by apply (Hf a b).
Qed.

(** A property of stores that nulling a column and removing rows keep is
    kept by every deletion, whatever the policies met on the way. *)
Lemma delete_rows_inv (P : store -> Prop) :
  (forall s k c pks, P s -> P (alter (set_null c pks) k s)) ->
  (forall s k c pks, P s -> P (alter (remove_rows c pks) k s)) ->
  forall fuel s m pks s',
    P s -> delete_rows fuel s m pks = Ok s' -> P s'.
Proof.
  intros Hnull Hrem. induction fuel as [| fuel IH]; intros s m pks s' Hs; simpl.
  - discriminate.
  - destruct (fold_result _ (referrers m) s) as [s1 |] eqn:E; simpl; [| done].
    intros [= <-]. apply Hrem.
    revert E. apply fold_result_inv; [| done].
    intros a mf a' Ha. unfold collect_one.
    destruct (on_delete_of (snd mf)).
    + by apply IH.
    + destruct (existsb _ _); [done |]. by intros [= <-].
    + intros [= <-]. by apply Hnull.
    + by intros [= <-].
Qed.

Lemma fold_result_set_null
    (rec : store -> model -> list value -> result store)
    (pks : list value) (l : list (model * field)) (s : store) :
  (forall mf, In mf l -> on_delete_of (snd mf) = SET_NULL) ->
  fold_result (collect_one rec pks) l s = Ok (set_null_all pks l s).
Proof.
  revert s. induction l as [| mf l IH]; intros s Hl; [done |].
  rewrite fold_result_cons. unfold collect_one at 1.
  rewrite (Hl mf) by (by left). simpl. apply IH. intros; apply Hl. by right.
Qed.

Lemma delete_rows_set_null (fuel : nat) (s : store) (m : model) (pks : list value) :
  (forall mf, In mf (referrers m) -> on_delete_of (snd mf) = SET_NULL) ->
  delete_rows (S fuel) s m pks =
  Ok (alter (remove_rows (pk_name m) pks) (model_name m)
        (set_null_all pks (referrers m) s)).
Proof. intros H. simpl. by rewrite fold_result_set_null. Qed.

(** The table of [m'] after the referring columns have been nulled. *)
Lemma get_table_set_null_all (pks : list value) (l : list (model * field))
    (s : store) (m' : model) :
  get_table (set_null_all pks l s) m' =
  fold_left
    (fun t mf =>
       if String.eqb (model_name (fst mf)) (model_name m')
       then set_null (name (snd mf)) pks t else t)
    l (get_table s m').
Proof.
  revert s. induction l as [| mf l IH]; intros s; [done |].
  simpl. rewrite IH. f_equal.
  destruct (String.eqb_spec (model_name (fst mf)) (model_name m')) as [Heq | Hne].
  - unfold get_table. rewrite <- Heq, lookup_alter_eq.
    by destruct (s !! model_name (fst mf)).
  - unfold get_table. by rewrite lookup_alter_ne.
Qed.

(** ** Deleting a summary row *)

Lemma refers_to_singleton (c : string) (v : value) (r : row) :
  refers_to c [v] r = true <-> r !! c = Some v.
Proof.
  unfold refers_to. destruct (r !! c) as [w |]; [| by split].
  rewrite bool_decide_eq_true, list_elem_of_singleton.
  split; congruence.
Qed.

Lemma null_out_other (c c' : string) (pks : list value) (r : row) :
  c' ≠ c -> null_out c pks r !! c' = r !! c'.
Proof.
  intros Hne. unfold null_out. destruct (refers_to c pks r); [| done].
  by rewrite lookup_delete_ne.
Qed.

Lemma null_out_column (c : string) (v : value) (r : row) :
  null_out c [v] r !! c =
  if decide (r !! c = Some v) then None else r !! c.
Proof.
  unfold null_out. destruct (refers_to c [v] r) eqn:E.
  - apply refers_to_singleton in E. rewrite decide_True by done.
    apply lookup_delete_eq.
  - rewrite decide_False; [done |]. intros H.
    apply refers_to_singleton in H. congruence.
Qed.

Lemma referrers_Form460Filing_SET_NULL (mf : model * field) :
  In mf (referrers Form460Filing) -> on_delete_of (snd mf) = SET_NULL.
Proof.
  assert (forallb (fun mf => match on_delete_of (snd mf) with
                             | SET_NULL => true
                             | _ => false
                             end) (referrers Form460Filing) = true) as H
    by by_evaluation.
  intros Hmf. pose proof (proj1 (forallb_forall _ _) H mf Hmf) as Hp.
  simpl in Hp. destruct (on_delete_of (snd mf)); done.
Qed.

Lemma delete_Form460Filing (s : store) (fid : value) :
  delete_instance s Form460Filing fid =
  Ok (alter (remove_rows "filing_id" [fid]) "Form460Filing"
        (set_null_all [fid] (referrers Form460Filing) s)).
Proof.
  unfold delete_instance. change (length schema) with (S 15).
  apply delete_rows_set_null, referrers_Form460Filing_SET_NULL.
Qed.

Lemma objects_alter_ne (g : table -> table) (k : string) (s : store) (m : model) :
  k ≠ model_name m -> objects (alter g k s) m = objects s m.
Proof. intros Hne. unfold objects, get_table. by rewrite lookup_alter_ne. Qed.

Lemma objects_after_delete_Form460Filing (s : store) (fid : value) (m : model) :
  In m (Form460FilingVersion :: current_item_models) ->
  objects (alter (remove_rows "filing_id" [fid]) "Form460Filing"
             (set_null_all [fid] (referrers Form460Filing) s)) m
  = null_out "filing" [fid] <$> objects s m.
Proof.
  intros Hm. rewrite objects_alter_ne.
  - unfold objects. rewrite get_table_set_null_all.
    simpl in Hm.
    repeat (destruct Hm as [<- | Hm]; [by_evaluation |]).
    destruct Hm.
  - simpl in Hm.
    repeat (destruct Hm as [<- | Hm]; [by vm_compute |]). destruct Hm.
Qed.

Lemma version_items_after_delete_Form460Filing (s : store) (fid : value) (m : model) :
  In m version_item_models ->
  objects (alter (remove_rows "filing_id" [fid]) "Form460Filing"
             (set_null_all [fid] (referrers Form460Filing) s)) m
  = objects s m.
Proof.
  intros Hm. rewrite objects_alter_ne.
  - unfold objects. rewrite get_table_set_null_all.
    simpl in Hm.
    repeat (destruct Hm as [<- | Hm]; [by_evaluation |]).
    destruct Hm.
  - simpl in Hm.
    repeat (destruct Hm as [<- | Hm]; [by vm_compute |]). destruct Hm.
Qed.

(** C4: deleting the summary row of a filing succeeds and deletes no
    version and no itemized row of the current tier: each of these tables
    keeps its rows, in place, and a row changes in nothing but its
    [filing] reference, which becomes absent where it named the deleted
    filing.  The itemized rows of the version tier are untouched, and of
    the summary rows only the deleted one goes. *)
Theorem filing_deletion_orphans (s : store) (fid : value) :
  exists s',
    delete_instance s Form460Filing fid = Ok s' /\
    (forall m, In m (Form460FilingVersion :: current_item_models) ->
       length (objects s' m) = length (objects s m) /\
       forall (i : nat) (r : row), objects s m !! i = Some r ->
         exists r', objects s' m !! i = Some r' /\
           (forall c, c ≠ "filing" -> r' !! c = r !! c) /\
           r' !! "filing" =
             if decide (r !! "filing" = Some fid) then None else r !! "filing") /\
    (forall m, In m version_item_models -> objects s' m = objects s m) /\
    (forall r, In r (objects s' Form460Filing) <->
               In r (objects s Form460Filing) /\ r !! "filing_id" ≠ Some fid).
Proof.
  eexists. split; [apply delete_Form460Filing |].
  split; [| split].
  - intros m Hm. rewrite (objects_after_delete_Form460Filing s fid m Hm).
    split; [apply length_fmap |].
    intros i r Hi. exists (null_out "filing" [fid] r).
    split; [by rewrite list_lookup_fmap, Hi |].
    split; [intros c Hc; by apply null_out_other | apply null_out_column].
  - intros m Hm. apply version_items_after_delete_Form460Filing, Hm.
  - intros r.
    assert (objects (alter (remove_rows "filing_id" [fid]) "Form460Filing"
                       (set_null_all [fid] (referrers Form460Filing) s))
              Form460Filing
            = List.filter (fun r => negb (refers_to "filing_id" [fid] r))
                (objects s Form460Filing)) as ->.
    { unfold objects.
      rewrite (get_table_alter_eq _ _ Form460Filing) by reflexivity.
      rewrite get_table_set_null_all. by_evaluation. }
    rewrite filter_In, negb_true_iff, <- not_true_iff_false, refers_to_singleton.
    reflexivity.
Qed.

Lemma filing_deletion_orphans_witness :
  exists s',
    delete_instance (after ∅ scenario) Form460Filing (VInt 1001) = Ok s' /\
    length (objects s' Form460ScheduleAItem) =
      length (objects (after ∅ scenario) Form460ScheduleAItem) /\
    (exists r', objects s' Form460FilingVersion !! 0%nat = Some r' /\
       r' !! "amend_id" =
         (<["id" := VInt 1]> version_1001_0 : row) !! "amend_id" /\
       r' !! "filing" = None).
Proof.
  destruct (filing_deletion_orphans (after ∅ scenario) (VInt 1001))
    as (s' & Hdel & Hkeep & _).
  exists s'. split; [exact Hdel |]. split.
  - apply (Hkeep Form460ScheduleAItem). simpl. auto.
  - destruct (Hkeep Form460FilingVersion) as [_ Hrows]; [simpl; auto |].
    destruct (Hrows 0%nat (<["id" := VInt 1]> version_1001_0))
      as (r' & Hr' & Hsame & Hnull); [by_evaluation |].
    exists r'. split; [exact Hr' |]. split.
    + apply Hsame. discriminate.
    + rewrite Hnull. by_evaluation.
Defined.

(** ** Uniqueness as an invariant of the store *)

Lemma distinct_on_app_one (u : list string) (l : list row) (r : row) :
  distinct_on u (l ++ [r]) =
  distinct_on u l && forallb (fun r' => negb (same_key u r' r)) l.
Proof.
  induction l as [| a l IH]; simpl; [done |].
  rewrite IH, forallb_app. simpl.
  destruct (forallb _ l), (same_key u a r), (distinct_on u l), (forallb _ l);
    reflexivity.
Qed.

Lemma distinct_on_filter (u : list string) (p : row -> bool) (l : list row) :
  distinct_on u l = true -> distinct_on u (List.filter p l) = true.
Proof.
  induction l as [| a l IH]; simpl; [done |].
  intros [Ha Hl]%andb_true_iff. destruct (p a); simpl; [| auto].
  apply andb_true_iff. split; [| auto].
  apply forallb_forall. intros r' [Hr' _]%filter_In.
  exact (proj1 (forallb_forall _ _) Ha r' Hr').
Qed.

(** Nulling a column can only take rows out of a key, never make two rows
    collide. *)
Lemma same_key_null_out (u : list string) (c : string) (pks : list value)
    (r r' : row) :
  same_key u (null_out c pks r) (null_out c pks r') = true ->
  same_key u r r' = true.
Proof.
  rewrite !same_key_true. intros H c' Hc'.
  destruct (H c' Hc') as (v & Hr & Hr'). exists v.
  assert (forall x : row, null_out c pks x !! c' = Some v -> x !! c' = Some v) as Hx.
  { intros x. unfold null_out. destruct (refers_to c pks x); [| done].
    destruct (decide (c' = c)) as [-> | Hne].
    - by rewrite lookup_delete_eq.
    - by rewrite lookup_delete_ne. }
  split; by apply Hx.
Qed.

Lemma distinct_on_null_out (u : list string) (c : string) (pks : list value)
    (l : list row) :
  distinct_on u l = true -> distinct_on u (null_out c pks <$> l) = true.
Proof.
  induction l as [| a l IH]; simpl; [done |].
  intros [Ha Hl]%andb_true_iff. apply andb_true_iff. split; [| auto].
  apply forallb_forall. intros r' Hr'.
  apply list_elem_of_In, list_elem_of_fmap in Hr' as (x & -> & Hx%list_elem_of_In).
  pose proof (proj1 (forallb_forall _ _) Ha x Hx) as Hax.
  apply negb_true_iff in Hax. apply negb_true_iff, not_true_is_false.
  intros Hk. apply same_key_null_out in Hk. congruence.
Qed.

(** Among rows that are distinct on [u], at most one matches conditions
    that fix every column of [u]. *)
Lemma distinct_on_filter_length (u : list string) (conds : list (string * value))
    (l : list row) :
  distinct_on u l = true ->
  (forall c, In c u -> exists v, In (c, v) conds) ->
  (length (List.filter (matches conds) l) <= 1)%nat.
Proof.
  intros Hd Hu. induction l as [| a l IH]; simpl; [lia |].
  simpl in Hd. apply andb_true_iff in Hd as [Ha Hl].
  destruct (matches conds a) eqn:Em; [| auto].
  simpl. replace (List.filter (matches conds) l) with (@nil row); [simpl; lia |].
  symmetry. apply filter_nil_iff. intros x Hx.
  apply not_true_is_false. intros Hm.
  pose proof (proj1 (forallb_forall _ _) Ha x Hx) as Hax.
  apply negb_true_iff in Hax.
  assert (same_key u a x = true) as Hk; [| congruence].
  apply same_key_true. intros c Hc. destruct (Hu c Hc) as [v Hv].
  exists v. split; [exact (proj1 (matches_true _ _) Em c v Hv) |].
  exact (proj1 (matches_true _ _) Hm c v Hv).
Qed.

Lemma schema_model_name_inj (m m' : model) :
  In m schema -> In m' schema -> model_name m = model_name m' -> m = m'.
Proof.
  assert (NoDup (model_name <$> schema)) as Hnd
    by (apply (bool_decide_unpack _); by vm_compute).
  revert Hnd. generalize schema. intros l.
  induction l as [| h l IH]; simpl; [done |].
  intros [Hh Hl]%NoDup_cons [<- | Hm] [<- | Hm'] Hn; auto.
  - exfalso. apply Hh. rewrite Hn. apply list_elem_of_fmap_2.
    by apply list_elem_of_In.
  - exfalso. apply Hh. rewrite <- Hn. apply list_elem_of_fmap_2.
    by apply list_elem_of_In.
Qed.

Lemma unique_ok_empty : unique_ok ∅.
Proof. intros m u _ _. reflexivity. Qed.

Lemma unique_ok_insert (s s' : store) (m : model) (r : row) :
  In m schema -> unique_ok s -> insert s m r = Ok s' -> unique_ok s'.
Proof.
  intros Hm Hs Hins m' u Hm' Hu.
  destruct (decide (model_name m = model_name m')) as [Heq | Hne].
  - apply (schema_model_name_inj m m' Hm Hm') in Heq as <-.
    rewrite (objects_insert s s' m r Hins), distinct_on_app_one.
    apply andb_true_iff. split; [by apply Hs |].
    apply insert_Ok in Hins as (_ & Huniq & _).
    apply forallb_forall. intros r' Hr'. apply negb_true_iff.
    rewrite same_key_sym.
    exact (proj1 (unique_violation_None _ _ _) Huniq u r' Hu Hr').
  - rewrite (objects_insert_ne s s' m m' r Hins Hne). by apply Hs.
Qed.

Lemma objects_alter (g : table -> table) (k : string) (s : store) (m : model) :
  g empty_table = empty_table ->
  objects (alter g k s) m =
  if decide (k = model_name m) then rows (g (get_table s m)) else objects s m.
Proof.
  intros Hg. destruct (decide (k = model_name m)) as [-> | Hne].
  - unfold objects. by rewrite get_table_alter_eq.
  - by apply objects_alter_ne.
Qed.

Lemma unique_ok_delete (s s' : store) (m : model) (pk : value) :
  unique_ok s -> delete_instance s m pk = Ok s' -> unique_ok s'.
Proof.
  unfold delete_instance. apply (delete_rows_inv unique_ok).
  - clear. intros s k c pks Hs m u Hm Hu.
    rewrite objects_alter by reflexivity. destruct (decide _); [| by apply Hs].
    simpl. apply distinct_on_null_out. by apply Hs.
  - clear. intros s k c pks Hs m u Hm Hu.
    rewrite objects_alter by reflexivity. destruct (decide _); [| by apply Hs].
    simpl. apply distinct_on_filter. by apply Hs.
Qed.

Lemma reachable_unique_ok (s : store) : reachable s -> unique_ok s.
Proof.
  induction 1 as [| s s' o _ IH Hm Hstep]; [apply unique_ok_empty |].
  destruct o as [m r | m pk]; simpl in *.
  - by apply (unique_ok_insert s s' m r).
  - by apply (unique_ok_delete s s' m pk).
Qed.

(** ** Itemized rows *)

Lemma item_models_in_schema (m : model) :
  In m (Form460FilingVersion :: current_item_models ++ version_item_models) ->
  In m schema.
Proof.
  intros Hm. simpl in Hm.
  repeat (destruct Hm as [<- | Hm];
          [unfold schema; repeat (try (left; reflexivity); right) |]).
  destruct Hm.
Qed.

Lemma item_model_key (m : model) (pc : string) :
  In m (current_item_models ++ version_item_models) ->
  parent_column m = Some pc ->
  unique_together m = [[pc; "line_item"]].
Proof.
  intros Hm. simpl in Hm.
  repeat (destruct Hm as [<- | Hm]; [by intros [= <-] |]).
  destruct Hm.
Qed.

(** C3, as stated, fails: two Schedule A items of the current tier with
    the same [line_item] and an absent [filing] are both stored. *)
Lemma orphan_item_inserted_twice :
  (do s1 <- create ∅ Form460ScheduleAItem (delete "filing" item_1001_1);
   do s2 <- create s1 Form460ScheduleAItem (delete "filing" item_1001_1);
   Ok ((fun r => (r !! "id", r !! "filing", r !! "line_item"))
         <$> objects s2 Form460ScheduleAItem))
  = Ok [ (Some (VInt 1), None, Some (VInt 1));
         (Some (VInt 2), None, Some (VInt 1)) ].
Proof. by_evaluation. Qed.

(** C3, amended: in each of the fourteen itemized tables, whatever
    insertions and deletions have produced the store, at most one row has a
    given present parent and a given [line_item]; and creating a complete
    row whose present parent and [line_item] are those of a stored row
    fails with a uniqueness violation, the store staying as it was. *)
Theorem itemized_rows_unique (m : model) (pc : string) :
  In m (current_item_models ++ version_item_models) ->
  parent_column m = Some pc ->
  (forall (s : store) (p li : value),
     reachable s ->
     (length (objects_filter s m [(pc, p); ("line_item", li)]) <= 1)%nat) /\
  (forall (s : store) (kwargs r' : row) (p li : value),
     supplies kwargs (required_columns m) = true ->
     kwargs !! pc = Some p -> kwargs !! "line_item" = Some li ->
     In r' (objects s m) ->
     r' !! pc = Some p -> r' !! "line_item" = Some li ->
     exists u,
       create s m kwargs = Err (UniquenessViolation u) /\
       after s (create s m kwargs) = s).
Proof.
  intros Hm Hpc.
  pose proof (item_model_key m pc Hm Hpc) as Hkey.
  assert (In m schema) as Hschema by (apply item_models_in_schema; by right).
  split.
  - intros s p li Hreach.
    apply (distinct_on_filter_length [pc; "line_item"]).
    + apply (reachable_unique_ok s Hreach m); [done |].
      right. rewrite Hkey. by left.
    + intros c [<- | [<- | []]]; eexists; simpl; eauto.
  - intros s kwargs r' p li Hs Hp Hli Hr' Hp' Hli'.
    destruct (create_duplicate s m kwargs r' [pc; "line_item"]) as [u Hu].
    + by apply schema_well_formed.
    + exact Hs.
    + rewrite Hkey. by left.
    + exact Hr'.
    + intros c [<- | [<- | []]]; eauto.
    + exists u. by rewrite Hu.
Qed.

Lemma itemized_rows_unique_witness :
  (length (objects_filter
             (after ∅ (create ∅ Form460ScheduleIItem item_1001_1))
             Form460ScheduleIItem
             [("filing", VInt 1001); ("line_item", VInt 1)]) <= 1)%nat /\
  (exists u,
     create (after ∅ (create ∅ Form460ScheduleIItem item_1001_1))
       Form460ScheduleIItem item_1001_1 = Err (UniquenessViolation u)).
Proof.
  destruct (itemized_rows_unique Form460ScheduleIItem "filing") as [H1 H2].
  { simpl. auto 10. }
  { by_evaluation. }
  split.
  - apply H1.
    apply (reachable_step ∅ _
             (Insert Form460ScheduleIItem
                (construct Form460ScheduleIItem item_1001_1))).
    + apply reachable_empty.
    + apply item_models_in_schema. simpl. auto 10.
    + by_evaluation.
  - destruct (H2 (after ∅ (create ∅ Form460ScheduleIItem item_1001_1))
                item_1001_1
                (assign_pk Form460ScheduleIItem empty_table
                   (construct Form460ScheduleIItem item_1001_1))
                (VInt 1001) (VInt 1))
      as (u & Hu & _).
    + by_evaluation.
    + by_evaluation.
    + by_evaluation.
    + only_row.
    + by_evaluation.
    + by_evaluation.
    + exists u. exact Hu.
Defined.

(** ** Orphaned rows *)

Lemma parent_reference_shape_schema (m : model) (pc : string) :
  In m (Form460FilingVersion :: current_item_models ++ version_item_models) ->
  parent_column m = Some pc ->
  parent_reference_shape m pc = true.
Proof.
  intros Hm. simpl in Hm.
  repeat (destruct Hm as [<- | Hm]; [intros [= <-]; by vm_compute |]).
  destruct Hm.
Qed.

Lemma parent_reference_facts (m : model) (pc : string) :
  parent_reference_shape m pc = true ->
  pk_name m = "id" /\
  kind (pk_field m) = AutoField /\
  pc ≠ "id" /\
  (forall u, In u (unique_together m) -> In pc u) /\
  (forall f, In f (all_fields m) -> name f = pc \/ name f = "id" ->
             get_default f = None) /\
  (forall f, In f (all_fields m) ->
             match kind f with
             | ForeignKey _ _ _ _ => name f = pc
             | _ => True
             end).
Proof.
  unfold parent_reference_shape. rewrite !andb_true_iff, !forallb_forall.
  intros [[[[[H1 H2] H3] H4] H5] H6].
  split; [by apply String.eqb_eq |].
  split; [by destruct (kind (pk_field m)) |].
  split; [apply negb_true_iff in H3; by apply String.eqb_neq |].
  split; [| split].
  - intros u Hu. apply H4, existsb_exists in Hu as (c & Hc & ->%String.eqb_eq).
    exact Hc.
  - intros f Hf Hn. specialize (H5 f Hf).
    assert (String.eqb (name f) pc || String.eqb (name f) "id" = true) as E.
    { apply orb_true_iff. destruct Hn as [-> | ->];
        [left | right]; apply String.eqb_refl. }
    rewrite E in H5. by apply bool_decide_eq_true in H5.
  - intros f Hf. specialize (H6 f Hf).
    destruct (kind f); try done. by apply String.eqb_eq.
Qed.

(** C9: in the version table and in each itemized table every
    [unique_together] set contains the nullable parent reference.  Among
    the rows that have every component of such a key the key is unique,
    in every store that insertions and deletions produce; but a complete
    row whose parent reference is absent is always inserted, whatever
    rows the table holds already, so that orphaned rows with one and the
    same [line_item] (or [amend_id]) stand side by side. *)
Theorem orphans_escape_uniqueness (m : model) (pc : string) :
  In m (Form460FilingVersion :: current_item_models ++ version_item_models) ->
  parent_column m = Some pc ->
  null <$> find (fun f => String.eqb (name f) pc) (fields m) = Some true /\
  (forall u, In u (unique_together m) -> In pc u) /\
  (forall (s : store) (u : list string) (conds : list (string * value)),
     reachable s ->
     In u (unique_together m) ->
     (forall c, In c u -> exists v, In (c, v) conds) ->
     (length (objects_filter s m conds) <= 1)%nat) /\
  (forall (s : store) (kwargs : row),
     kwargs !! pc = None -> kwargs !! "id" = None ->
     supplies kwargs (required_columns m) = true ->
     has_pk s m (VInt (next_id (get_table s m))) = false ->
     exists s',
       create s m kwargs = Ok s' /\
       objects s' m =
         objects s m ++
         [<["id" := VInt (next_id (get_table s m))]> (construct m kwargs)] /\
       (<["id" := VInt (next_id (get_table s m))]> (construct m kwargs) : row)
         !! pc = None).
Proof.
  intros Hm Hpc.
  pose proof (item_models_in_schema m Hm) as Hschema.
  pose proof (schema_well_formed m Hschema) as Hwf.
  destruct (parent_reference_facts m pc (parent_reference_shape_schema m pc Hm Hpc))
    as (Hpk & Hauto & Hne & Hkeys & Hdef & Hfk).
  split; [| split; [exact Hkeys | split]].
  - revert Hpc. simpl in Hm.
    repeat (destruct Hm as [<- | Hm]; [by intros [= <-] |]). destruct Hm.
  - intros s u conds Hreach Hu Hconds.
    apply (distinct_on_filter_length u); [| done].
    apply (reachable_unique_ok s Hreach m); [done | by right].
  - intros s kwargs Hnone Hid Hs Hfresh.
    assert (construct m kwargs !! pc = None) as Hcpc
      by (apply apply_defaults_None; [done | intros f Hf Hn; apply Hdef; auto]).
    assert (construct m kwargs !! "id" = None) as Hcid
      by (apply apply_defaults_None; [done | intros f Hf Hn; apply Hdef; auto]).
    assert (forall t, assign_pk m t (construct m kwargs)
                      = <["id" := VInt (next_id t)]> (construct m kwargs)) as Hassign.
    { intros t. unfold assign_pk, draws_id. by rewrite Hauto, Hpk, Hcid. }
    assert ((<["id" := VInt (next_id (get_table s m))]> (construct m kwargs) : row)
              !! pc = None) as Hnew
      by (rewrite lookup_insert_ne; [done | congruence]).
    assert (insert s m (construct m kwargs) =
            Ok (<[model_name m := add_row m (construct m kwargs) (get_table s m)]> s))
      as Hins.
    { apply insert_checks.
      - by apply supplies_not_null.
      - rewrite Hassign. apply unique_violation_None.
        intros u r' [<- | Hu] Hr'.
        + apply not_true_is_false. intros Hk.
          destruct (proj1 (same_key_true _ _ _) Hk (pk_name m)) as (v & Hv & Hv');
            [by left |].
          rewrite Hpk, lookup_insert_eq in Hv.
          apply (proj1 (has_pk_false s m _) Hfresh r' Hr'). congruence.
        + apply (same_key_null u _ r' pc); [by apply Hkeys | exact Hnew].
      - rewrite Hassign. apply foreign_key_violation_None. intros f Hf.
        specialize (Hfk f Hf). unfold dangling.
        destruct (kind f); try done. rewrite Hfk, Hnew. by destruct db_constraint. }
    fold (create s m kwargs) in Hins.
    eexists. split; [exact Hins |]. split; [| exact Hnew].
    by rewrite (objects_create _ _ _ _ Hins), Hassign.
Qed.

Lemma orphans_escape_uniqueness_witness :
  let orphan : row := delete "filing" item_1001_1 in
  let s := after ∅ (create ∅ Form460ScheduleAItem orphan) in
  (length (objects_filter s Form460ScheduleAItem
             [("filing", VInt 1001); ("line_item", VInt 1)]) <= 1)%nat /\
  exists s',
    create s Form460ScheduleAItem orphan = Ok s' /\
    objects s' Form460ScheduleAItem =
      [ <["id" := VInt 1]> orphan; <["id" := VInt 2]> orphan ].
Proof.
  intros orphan s.
  destruct (orphans_escape_uniqueness Form460ScheduleAItem "filing")
    as (_ & _ & Huniq & Hins).
  { simpl. auto 20. }
  { by_evaluation. }
  split.
  - apply (Huniq s ["filing"; "line_item"]).
    + apply (reachable_step ∅ _
               (Insert Form460ScheduleAItem
                  (construct Form460ScheduleAItem orphan))).
      * apply reachable_empty.
      * apply item_models_in_schema. simpl. auto 20.
      * by_evaluation.
    + left. reflexivity.
    + intros c [<- | [<- | []]]; eexists; simpl; eauto.
  - destruct (Hins s orphan) as (s' & Hs' & Hrows & _).
    + by_evaluation.
    + by_evaluation.
    + by_evaluation.
    + by_evaluation.
    + exists s'. split; [exact Hs' |]. rewrite Hrows.
      by_evaluation.
Defined.

(** ** Stored items name stored versions *)

Lemma has_pk_true (s : store) (m : model) (v : value) :
  has_pk s m v = true <->
  exists r, In r (objects s m) /\ r !! pk_name m = Some v.
Proof.
  unfold has_pk. rewrite existsb_exists.
  split; intros (r & Hr & Hv); exists r; split; try done.
  - by apply bool_decide_eq_true in Hv.
  - by apply bool_decide_eq_true.
Qed.

Lemma objects_insert_any (s s' : store) (m m' : model) (r0 : row) :
  insert s m r0 = Ok s' ->
  objects s' m' =
  if decide (model_name m = model_name m')
  then objects s m' ++ [assign_pk m (get_table s m) r0]
  else objects s m'.
Proof.
  intros Hins. destruct (decide _) as [Heq | Hne].
  - assert (forall s0, objects s0 m' = objects s0 m) as Hsame
      by (intros s0; unfold objects, get_table; by rewrite Heq).
    rewrite !Hsame. by apply objects_insert.
  - by apply (objects_insert_ne s s' m m' r0).
Qed.

Lemma has_pk_insert (s s' : store) (m m' : model) (r0 : row) (v : value) :
  insert s m r0 = Ok s' -> has_pk s m' v = true -> has_pk s' m' v = true.
Proof.
  intros Hins. rewrite !has_pk_true. intros (r & Hr & Hv). exists r.
  split; [| done]. rewrite (objects_insert_any s s' m m' r0 Hins).
  destruct (decide _); [apply in_or_app; by left | done].
Qed.

(** The parent reference of a version-tier item is checked by the storage. *)
Lemma version_item_reference_checked (s : store) (m : model) (r : row)
    (vid : value) :
  In m version_item_models ->
  foreign_key_violation s m r = None ->
  r !! "filing_version" = Some vid ->
  has_pk s Form460FilingVersion vid = true.
Proof.
  intros Hm Hfk Hr.
  assert (exists rn,
            In (nullable (column "filing_version"
                  (ForeignKey "Form460FilingVersion" rn true SET_NULL)))
               (all_fields m)) as [rn Hf].
  { simpl in Hm.
    repeat (destruct Hm as [<- | Hm];
            [eexists; apply in_cons, in_or_app; right; left; reflexivity |]).
    destruct Hm. }
  pose proof (proj1 (foreign_key_violation_None s m r) Hfk _ Hf) as Hd.
  unfold dangling in Hd. cbn [kind name nullable column] in Hd.
  rewrite Hr in Hd.
  change (find_model "Form460FilingVersion") with (Some Form460FilingVersion) in Hd.
  by apply negb_false_iff in Hd.
Qed.

Lemma version_item_name (m : model) :
  In m version_item_models ->
  model_name m ≠ model_name Form460FilingVersion /\
  model_name m ≠ model_name Form460Filing.
Proof.
  intros Hm. simpl in Hm.
  repeat (destruct Hm as [<- | Hm]; [split; discriminate |]). destruct Hm.
Qed.

Lemma versions_resolve_insert (s s' : store) (m : model) (r0 : row) :
  In m schema -> versions_resolve s -> insert s m r0 = Ok s' ->
  versions_resolve s'.
Proof.
  intros Hm Hs Hins m' r vid Hm' Hr Hv.
  rewrite (objects_insert_any s s' m m' r0 Hins) in Hr.
  destruct (decide _) as [Heq | Hne].
  - apply in_app_or in Hr as [Hr | [<- | []]].
    + apply (has_pk_insert s s' m _ r0 _ Hins). by apply (Hs m' r).
    + apply (has_pk_insert s s' m _ r0 _ Hins).
      apply (schema_model_name_inj m m' Hm) in Heq as <-;
        [| apply item_models_in_schema; right; apply in_or_app; by right].
      apply insert_Ok in Hins as (_ & _ & Hfk & _).
      by apply (version_item_reference_checked s m _ vid Hm' Hfk).
  - apply (has_pk_insert s s' m _ r0 _ Hins). by apply (Hs m' r).
Qed.

Lemma schema_referrers_SET_NULL (m : model) (mf : model * field) :
  In m schema -> In mf (referrers m) -> on_delete_of (snd mf) = SET_NULL.
Proof.
  assert (forallb
            (fun m => forallb
                        (fun mf => match on_delete_of (snd mf) with
                                   | SET_NULL => true
                                   | _ => false
                                   end)
                        (referrers m))
            schema = true) as H by by_evaluation.
  intros Hm Hmf.
  pose proof (proj1 (forallb_forall _ _) H m Hm) as Hrefs. simpl in Hrefs.
  pose proof (proj1 (forallb_forall _ _) Hrefs mf Hmf) as Hp. simpl in Hp.
  destruct (on_delete_of (snd mf)); done.
Qed.

(** Every foreign key of the schema is SET_NULL, so deleting a row of any
    model nulls the references to it and removes it. *)
Lemma delete_instance_schema (s : store) (m : model) (pk : value) :
  In m schema ->
  delete_instance s m pk =
  Ok (alter (remove_rows (pk_name m) [pk]) (model_name m)
        (set_null_all [pk] (referrers m) s)).
Proof.
  intros Hm. unfold delete_instance. change (length schema) with (S 15).
  apply delete_rows_set_null. intros mf. by apply schema_referrers_SET_NULL.
Qed.

Lemma schema_cases (m : model) :
  In m schema ->
  m = Form460Filing \/ m = Form460FilingVersion \/
  In m (current_item_models ++ version_item_models).
Proof.
  intros Hm. unfold schema in Hm. simpl in Hm.
  destruct Hm as [<- | [<- | Hm]]; [auto | auto |].
  right. right. simpl.
  repeat (destruct Hm as [<- | Hm]; [tauto |]). destruct Hm.
Qed.

Lemma item_model_no_referrers (m : model) :
  In m (current_item_models ++ version_item_models) ->
  referrers m = [] /\ model_name m ≠ model_name Form460FilingVersion.
Proof.
  intros Hm. simpl in Hm.
  repeat (destruct Hm as [<- | Hm]; [split; [by vm_compute | discriminate] |]).
  destruct Hm.
Qed.

Lemma objects_after_delete_Form460FilingVersion (s : store) (pk : value)
    (m : model) :
  In m version_item_models ->
  objects (alter (remove_rows "id" [pk]) "Form460FilingVersion"
             (set_null_all [pk] (referrers Form460FilingVersion) s)) m
  = null_out "filing_version" [pk] <$> objects s m.
Proof.
  intros Hm. rewrite objects_alter_ne.
  - unfold objects. rewrite get_table_set_null_all.
    simpl in Hm.
    repeat (destruct Hm as [<- | Hm]; [by_evaluation |]).
    destruct Hm.
  - simpl in Hm.
    repeat (destruct Hm as [<- | Hm]; [by vm_compute |]). destruct Hm.
Qed.

Lemma versions_after_delete_Form460FilingVersion (s : store) (pk : value) :
  objects (alter (remove_rows "id" [pk]) "Form460FilingVersion"
             (set_null_all [pk] (referrers Form460FilingVersion) s))
    Form460FilingVersion
  = List.filter (fun r => negb (refers_to "id" [pk] r))
      (objects s Form460FilingVersion).
Proof.
  unfold objects.
  rewrite (get_table_alter_eq _ _ Form460FilingVersion) by reflexivity.
  rewrite get_table_set_null_all. by_evaluation.
Qed.

Lemma has_pk_null_out (l : list row) (c : string)
    (pks : list value) (k : string) (v : value) :
  c ≠ k ->
  existsb (fun r => bool_decide (r !! k = Some v)) (null_out c pks <$> l) =
  existsb (fun r => bool_decide (r !! k = Some v)) l.
Proof.
  intros Hne. induction l as [| r l IH]; [done |].
  rewrite fmap_cons. cbn [existsb]. rewrite IH.
  by rewrite null_out_other.
Qed.

Lemma versions_resolve_delete (s s' : store) (m : model) (pk : value) :
  In m schema -> versions_resolve s -> delete_instance s m pk = Ok s' ->
  versions_resolve s'.
Proof.
  intros Hm Hs Hdel. rewrite (delete_instance_schema s m pk Hm) in Hdel.
  injection Hdel as <-.
  destruct (schema_cases m Hm) as [-> | [-> | Hitem]]; intros m' r vid Hm' Hr Hv.
  - (* a summary row: versions lose their [filing], items are untouched *)
    change (pk_name Form460Filing) with "filing_id" in *.
    change (model_name Form460Filing) with "Form460Filing" in *.
    rewrite (version_items_after_delete_Form460Filing s pk m' Hm') in Hr.
    unfold has_pk.
    rewrite (objects_after_delete_Form460Filing s pk Form460FilingVersion)
      by (by left).
    rewrite has_pk_null_out by discriminate.
    by apply (Hs m' r).
  - (* a version: the items that named it lose their reference *)
    change (pk_name Form460FilingVersion) with "id" in *.
    change (model_name Form460FilingVersion) with "Form460FilingVersion" in *.
    rewrite (objects_after_delete_Form460FilingVersion s pk m' Hm') in Hr.
    apply list_elem_of_In, list_elem_of_fmap in Hr as (r0 & -> & Hr0%list_elem_of_In).
    rewrite null_out_column in Hv.
    destruct (decide (r0 !! "filing_version" = Some pk)) as [| Hne]; [done |].
    apply has_pk_true. rewrite versions_after_delete_Form460FilingVersion.
    destruct (proj1 (has_pk_true s _ vid) (Hs m' r0 vid Hm' Hr0 Hv))
      as (v & Hin & Hid).
    exists v. split; [| done]. apply filter_In. split; [done |].
    apply negb_true_iff, not_true_is_false. intros Href.
    apply refers_to_singleton in Href.
    change (pk_name Form460FilingVersion) with "id" in Hid. congruence.
  - (* an itemized row: only that row goes *)
    destruct (item_model_no_referrers m Hitem) as [Hrefs Hname].
    rewrite Hrefs in *. cbn [set_null_all fold_left] in *.
    rewrite objects_alter in Hr by reflexivity.
    unfold has_pk. rewrite objects_alter_ne by done.
    apply (Hs m' r vid Hm'); [| done].
    destruct (decide _); [| done].
    cbn [remove_rows rows] in Hr. by apply filter_In in Hr as [Hr _].
Qed.

Lemma reachable_versions_resolve (s : store) :
  reachable s -> versions_resolve s.
Proof.
  induction 1 as [| s s' o _ IH Hm Hstep].
  - intros m r vid Hm Hr. simpl in Hm.
    repeat (destruct Hm as [<- | Hm]; [destruct Hr |]). destruct Hm.
  - destruct o as [m r | m pk]; simpl in *.
    + by apply (versions_resolve_insert s s' m r).
    + by apply (versions_resolve_delete s s' m pk).
Qed.

Lemma filter_matches_In (conds : list (string * value)) (l : list row) (f : row)
    (c : string) (v : value) :
  In f (List.filter (matches conds) l) -> In (c, v) conds -> f !! c = Some v.
Proof.
  intros [_ Hm]%filter_In Hc. exact (proj1 (matches_true _ _) Hm c v Hc).
Qed.

(** ** String representation of the version tier's items *)

Lemma stored_version_get (s : store) (vid : value) :
  unique_ok s ->
  has_pk s Form460FilingVersion vid = true ->
  exists v,
    In v (objects s Form460FilingVersion) /\
    objects_get s Form460FilingVersion [("id", vid)] = Ok v.
Proof.
  intros Hu Hpk. apply has_pk_true in Hpk as (v & Hv & Hid).
  change (pk_name Form460FilingVersion) with "id" in Hid.
  assert (In v (objects_filter s Form460FilingVersion [("id", vid)])) as Hin.
  { apply filter_In. split; [done |]. apply matches_true.
    intros c w [[= <- <-] | []]. done. }
  assert (length (objects_filter s Form460FilingVersion [("id", vid)]) <= 1)%nat
    as Hlen.
  { apply (distinct_on_filter_length ["id"]).
    - apply (Hu Form460FilingVersion); [| by left].
      apply item_models_in_schema. by left.
    - intros c [<- | []]. exists vid. by left. }
  exists v. split; [done |]. unfold objects_get.
  destruct (objects_filter s Form460FilingVersion [("id", vid)])
    as [| x [| y l]]; cbn [length] in Hlen.
  - destruct Hin.
  - destruct Hin as [-> | []]. reflexivity.
  - lia.
Qed.

(** C10: the string representation of an itemized row of the version tier
    reads its [filing_version] parent.  With the reference absent it fails
    (attribute access on [None]) and returns no value; with the reference
    resolving to a stored version it returns the version's filing
    identifier, its [amend_id] and the row's [line_item], joined by
    dashes.  In a store produced by insertions and deletions the present
    reference of every stored row does resolve, so the representation of
    a stored row fails only when the row is orphaned. *)
Theorem version_item_str_reads_parent (s : store) (r : row) :
  (r !! "filing_version" = None ->
     version_item_str s r = Err AttributeError /\
     forall x, version_item_str s r ≠ Ok x) /\
  (forall (vid : value) (v : row),
     r !! "filing_version" = Some vid ->
     objects_get s Form460FilingVersion [("id", vid)] = Ok v ->
     version_item_str s r =
       Ok (py_str (v !! "filing") +:+ "-" +:+ py_str (v !! "amend_id")
           +:+ "-" +:+ py_str (r !! "line_item"))) /\
  (forall (m : model),
     reachable s -> In m version_item_models -> In r (objects s m) ->
     is_Some (r !! "filing_version") ->
     exists v,
       In v (objects s Form460FilingVersion) /\
       r !! "filing_version" = v !! "id" /\
       version_item_str s r =
         Ok (py_str (v !! "filing") +:+ "-" +:+ py_str (v !! "amend_id")
             +:+ "-" +:+ py_str (r !! "line_item"))).
Proof.
  assert (forall (vid : value) (v : row),
            r !! "filing_version" = Some vid ->
            objects_get s Form460FilingVersion [("id", vid)] = Ok v ->
            version_item_str s r =
              Ok (py_str (v !! "filing") +:+ "-" +:+ py_str (v !! "amend_id")
                  +:+ "-" +:+ py_str (r !! "line_item"))) as Hsome.
  { intros vid v Hr Hv. unfold version_item_str, related. rewrite Hr.
    change (pk_name Form460FilingVersion) with "id". by rewrite Hv. }
  split; [| split; [exact Hsome |]].
  - intros Hr. unfold version_item_str, related. rewrite Hr.
    split; [reflexivity | discriminate].
  - intros m Hreach Hm Hr [vid Hvid].
    destruct (stored_version_get s vid (reachable_unique_ok s Hreach))
      as (v & Hv & Hget).
    { by apply (reachable_versions_resolve s Hreach m r). }
    exists v. split; [done |]. split; [| by apply (Hsome vid)].
    rewrite Hvid. symmetry.
    unfold objects_get in Hget.
    assert (In v (objects_filter s Form460FilingVersion [("id", vid)])) as Hin.
    { destruct (objects_filter s Form460FilingVersion [("id", vid)])
        as [| x [| y l]]; try discriminate.
      injection Hget as ->. by left. }
    apply (filter_matches_In _ _ _ "id" vid Hin). by left.
Qed.

Lemma version_item_str_reads_parent_witness :
  let s1 := after ∅ (create ∅ Form460FilingVersion version_1001_0) in
  let s2 := after s1 (create s1 Form460ScheduleAItemVersion item_version_1_7) in
  let stored : row := <["id" := VInt 1]> item_version_1_7 in
  version_item_str s2 (delete "filing_version" item_version_1_7)
    = Err AttributeError /\
  version_item_str s2 item_version_1_7 = Ok "1001-0-7" /\
  exists v, In v (objects s2 Form460FilingVersion) /\
            version_item_str s2 stored
              = Ok (py_str (v !! "filing") +:+ "-" +:+ py_str (v !! "amend_id")
                    +:+ "-" +:+ py_str (stored !! "line_item")).
Proof.
  intros s1 s2 stored.
  destruct (version_item_str_reads_parent s2
              (delete "filing_version" item_version_1_7)) as (Hnone & _).
  destruct (version_item_str_reads_parent s2 item_version_1_7) as (_ & Hsome & _).
  destruct (version_item_str_reads_parent s2 stored) as (_ & _ & Hstored).
  split; [| split].
  - apply Hnone. by_evaluation.
  - rewrite (Hsome (VInt 1) (<["id" := VInt 1]> version_1001_0)).
    + by_evaluation.
    + by_evaluation.
    + by_evaluation.
  - destruct (Hstored Form460ScheduleAItemVersion) as (v & Hv & _ & Hstr).
    + apply (reachable_step s1 _
               (Insert Form460ScheduleAItemVersion
                  (construct Form460ScheduleAItemVersion item_version_1_7))).
      * apply (reachable_step ∅ _
                 (Insert Form460FilingVersion
                    (construct Form460FilingVersion version_1001_0))).
        -- apply reachable_empty.
        -- apply item_models_in_schema. by left.
        -- by_evaluation.
      * apply item_models_in_schema. simpl. auto 20.
      * by_evaluation.
    + simpl. auto.
    + only_row.
    + vm_compute. eauto.
    + exists v. split; [exact Hv | exact Hstr].
Defined.

(** Deleting the parent version orphans the stored item, whose string
    representation then fails. *)
Lemma version_item_str_after_parent_deletion :
  (do s1 <- scenario;
   do s2 <- create s1 Form460ScheduleAItemVersion item_version_1_7;
   do s3 <- delete_instance s2 Form460FilingVersion (VInt 1);
   Ok ((fun r => (r !! "filing_version", version_item_str s3 r))
         <$> objects s3 Form460ScheduleAItemVersion))
  = Ok [ (None, Err AttributeError) ].
Proof. by_evaluation. Qed.

(** ** The amendment count *)



Lemma create_Ok (s s' : store) (m : model) (kwargs : row) :
  create s m kwargs = Ok s' ->
  not_null_violation m (assign_pk m (get_table s m) (construct m kwargs)) = None /\
  unique_violation m (get_table s m)
    (assign_pk m (get_table s m) (construct m kwargs)) = None /\
  foreign_key_violation s m
    (assign_pk m (get_table s m) (construct m kwargs)) = None /\
  s' = <[model_name m := add_row m (construct m kwargs) (get_table s m)]> s.
Proof. unfold create. apply insert_Ok. Qed.









Lemma objects_create_ne (s s' : store) (m m' : model) (kwargs : row) :
  create s m kwargs = Ok s' ->
  model_name m ≠ model_name m' ->
  objects s' m' = objects s m'.
Proof. unfold create. apply objects_insert_ne. Qed.














(** * Further properties of the schema *)

Lemma reachable_scenario : reachable (after ∅ scenario).
Proof.
  apply (reachable_step
           (after (after ∅ (create ∅ Form460Filing filing_1001))
              (create (after ∅ (create ∅ Form460Filing filing_1001))
                 Form460FilingVersion version_1001_0))
           _
           (Insert Form460ScheduleAItem
              (construct Form460ScheduleAItem item_1001_1))).
  - apply (reachable_step (after ∅ (create ∅ Form460Filing filing_1001)) _
             (Insert Form460FilingVersion
                (construct Form460FilingVersion version_1001_0))).
    + apply (reachable_step ∅ _
               (Insert Form460Filing (construct Form460Filing filing_1001))).
      * apply reachable_empty.
      * by left.
      * by_evaluation.
    + right. by left.
    + by_evaluation.
  - apply item_models_in_schema. simpl. auto.
  - by_evaluation.
Qed.

(** ** The filing identifier as a key *)

Lemma create_collision (s : store) (m : model) (kwargs r' : row)
    (u : list string) :
  well_formed m = true ->
  supplies kwargs (required_columns m) = true ->
  In u (unique_sets m) ->
  In r' (objects s m) ->
  (forall c, In c u -> exists v, kwargs !! c = Some v /\ r' !! c = Some v) ->
  exists u', In u' (unique_sets m) /\
             create s m kwargs = Err (UniquenessViolation u').
Proof.
  intros Hwf Hs Hu Hr' Hk.
  destruct (unique_violation_Some m (get_table s m)
              (assign_pk m (get_table s m) (construct m kwargs)) r' u Hu Hr')
    as [u' Hu'].
  - apply same_key_true. intros c Hc. destruct (Hk c Hc) as (v & Hv & Hv').
    exists v. split; [| done].
    apply assign_pk_Some. by apply apply_defaults_Some.
  - exists u'. split.
    + unfold unique_violation in Hu'. by apply find_some in Hu' as [? _].
    + unfold create, insert.
      by rewrite (supplies_not_null m (get_table s m) kwargs Hwf Hs), Hu'.
Qed.

(** Rows of a table that is distinct on [u] and that agree on [u] are one
    and the same row. *)
Lemma distinct_on_In_eq (u : list string) (l : list row) (r1 r2 : row) :
  distinct_on u l = true -> In r1 l -> In r2 l ->
  same_key u r1 r2 = true -> r1 = r2.
Proof.
  induction l as [| a l IH]; [intros _ [] |].
  cbn [distinct_on]. intros [Ha Hl]%andb_true_iff [<- | H1] [<- | H2] Hk; auto.
  - pose proof (proj1 (forallb_forall _ _) Ha r2 H2) as Hn.
    apply negb_true_iff in Hn. congruence.
  - pose proof (proj1 (forallb_forall _ _) Ha r1 H1) as Hn.
    apply negb_true_iff in Hn. rewrite same_key_sym in Hn. congruence.
Qed.

(** X1: the filing identifier is the key of the summary table.  In every
    store produced by insertions and deletions a lookup by [filing_id] finds
    at most one row and so never fails for ambiguity; and creating a
    complete summary row whose [filing_id] is already stored fails with a
    uniqueness violation on [filing_id], the store staying as it was. *)
Theorem filing_id_is_key (s : store) (fid : value) :
  (reachable s ->
     (length (objects_filter s Form460Filing [("filing_id", fid)]) <= 1)%nat /\
     objects_get s Form460Filing [("filing_id", fid)]
       ≠ Err MultipleObjectsReturned) /\
  (forall kwargs : row,
     kwargs !! "filing_id" = Some fid ->
     supplies kwargs (required_columns Form460Filing) = true ->
     has_pk s Form460Filing fid = true ->
     create s Form460Filing kwargs = Err (UniquenessViolation ["filing_id"]) /\
     after s (create s Form460Filing kwargs) = s).
Proof.
  split.
  - intros Hreach.
    assert (length (objects_filter s Form460Filing [("filing_id", fid)]) <= 1)%nat
      as Hlen.
    { apply (distinct_on_filter_length ["filing_id"]).
      - apply (reachable_unique_ok s Hreach Form460Filing); by left.
      - intros c [<- | []]. exists fid. by left. }
    split; [exact Hlen |]. unfold objects_get.
    destruct (objects_filter s Form460Filing [("filing_id", fid)])
      as [| x [| y l]]; cbn [length] in Hlen; [done | done | lia].
  - intros kwargs Hid Hs Hpk.
    apply has_pk_true in Hpk as (r' & Hr' & Hv).
    destruct (create_collision s Form460Filing kwargs r' ["filing_id"])
      as (u' & Hu' & Hcreate).
    + by_evaluation.
    + exact Hs.
    + by left.
    + exact Hr'.
    + intros c [<- | []]. exists fid. by split.
    + destruct Hu' as [<- | []].
      change (pk_name Form460Filing) with "filing_id" in Hcreate.
      by rewrite Hcreate.
Qed.

Lemma filing_id_is_key_witness :
  let s := after ∅ (create ∅ Form460Filing filing_1001) in
  (length (objects_filter s Form460Filing [("filing_id", VInt 1001)]) <= 1)%nat /\
  create s Form460Filing filing_1001 = Err (UniquenessViolation ["filing_id"]).
Proof.
  intros s.
  destruct (filing_id_is_key s (VInt 1001)) as [Hlookup Hdup].
  split.
  - apply Hlookup.
    apply (reachable_step ∅ _
             (Insert Form460Filing (construct Form460Filing filing_1001))).
    + apply reachable_empty.
    + by left.
    + by_evaluation.
  - apply (Hdup filing_1001); by_evaluation.
Defined.

(** X2: the string representation of a summary row, [str(filing_id)],
    identifies the row: in a store produced by insertions and deletions two
    summary rows with integer identifiers and the same representation are
    the same row. *)
Theorem Form460Filing_str_identifies (s : store) (f1 f2 : row) (a b : Z) :
  reachable s ->
  In f1 (objects s Form460Filing) -> In f2 (objects s Form460Filing) ->
  f1 !! "filing_id" = Some (VInt a) -> f2 !! "filing_id" = Some (VInt b) ->
  Form460Filing_str f1 = Form460Filing_str f2 ->
  f1 = f2.
Proof.
  intros Hreach H1 H2 Ha Hb Hstr.
  unfold Form460Filing_str in Hstr. rewrite Ha, Hb in Hstr. cbn [py_str] in Hstr.
  apply (inj pretty) in Hstr as ->.
  apply (distinct_on_In_eq ["filing_id"] (objects s Form460Filing)); try done.
  - apply (reachable_unique_ok s Hreach Form460Filing); by left.
  - apply same_key_true. intros c [<- | []]. eauto.
Qed.

Lemma Form460Filing_str_identifies_witness :
  let s := after ∅ (create ∅ Form460Filing filing_1001) in
  filing_1001 = filing_1001.
Proof.
  intros s.
  apply (Form460Filing_str_identifies s filing_1001 filing_1001 1001 1001).
  - apply (reachable_step ∅ _
             (Insert Form460Filing (construct Form460Filing filing_1001))).
    + apply reachable_empty.
    + by left.
    + by_evaluation.
  - only_row.
  - only_row.
  - by_evaluation.
  - by_evaluation.
  - reflexivity.
Defined.

(** ** Deleting a version *)

Lemma others_after_delete_Form460FilingVersion (s : store) (pk : value)
    (m : model) :
  In m (Form460Filing :: current_item_models) ->
  objects (alter (remove_rows "id" [pk]) "Form460FilingVersion"
             (set_null_all [pk] (referrers Form460FilingVersion) s)) m
  = objects s m.
Proof.
  intros Hm. rewrite objects_alter_ne.
  - unfold objects. rewrite get_table_set_null_all.
    simpl in Hm.
    repeat (destruct Hm as [<- | Hm]; [by_evaluation |]).
    destruct Hm.
  - simpl in Hm.
    repeat (destruct Hm as [<- | Hm]; [by vm_compute |]). destruct Hm.
Qed.

Lemma delete_Form460FilingVersion (s : store) (vid : value) :
  delete_instance s Form460FilingVersion vid =
  Ok (alter (remove_rows "id" [vid]) "Form460FilingVersion"
        (set_null_all [vid] (referrers Form460FilingVersion) s)).
Proof. apply (delete_instance_schema s Form460FilingVersion). right. by left. Qed.

(** X3: deleting a version succeeds and deletes no itemized row: each
    itemized table of the version tier keeps its rows, in place, and a row
    changes in nothing but its [filing_version] reference, which becomes
    absent where it named the deleted version.  The summary rows (their
    [amendment_count] included) and the itemized rows of the current tier
    are untouched, and of the versions only the deleted one goes. *)
Theorem version_deletion_orphans (s : store) (vid : value) :
  exists s',
    delete_instance s Form460FilingVersion vid = Ok s' /\
    (forall m, In m version_item_models ->
       length (objects s' m) = length (objects s m) /\
       forall (i : nat) (r : row), objects s m !! i = Some r ->
         exists r', objects s' m !! i = Some r' /\
           (forall c, c ≠ "filing_version" -> r' !! c = r !! c) /\
           r' !! "filing_version" =
             if decide (r !! "filing_version" = Some vid)
             then None else r !! "filing_version") /\
    (forall m, In m (Form460Filing :: current_item_models) ->
       objects s' m = objects s m) /\
    (forall r, In r (objects s' Form460FilingVersion) <->
               In r (objects s Form460FilingVersion) /\ r !! "id" ≠ Some vid).
Proof.
  eexists. split; [apply delete_Form460FilingVersion |].
  split; [| split].
  - intros m Hm. rewrite (objects_after_delete_Form460FilingVersion s vid m Hm).
    split; [apply length_fmap |].
    intros i r Hi. exists (null_out "filing_version" [vid] r).
    split; [by rewrite list_lookup_fmap, Hi |].
    split; [intros c Hc; by apply null_out_other | apply null_out_column].
  - intros m Hm. by apply others_after_delete_Form460FilingVersion.
  - intros r. rewrite versions_after_delete_Form460FilingVersion.
    rewrite filter_In, negb_true_iff, <- not_true_iff_false, refers_to_singleton.
    reflexivity.
Qed.

Lemma version_deletion_orphans_witness :
  let s := after (after ∅ scenario)
             (create (after ∅ scenario) Form460ScheduleAItemVersion
                item_version_1_7) in
  exists s',
    delete_instance s Form460FilingVersion (VInt 1) = Ok s' /\
    objects s' Form460Filing = objects s Form460Filing /\
    (exists r', objects s' Form460ScheduleAItemVersion !! 0%nat = Some r' /\
       r' !! "line_item" = Some (VInt 7) /\
       r' !! "filing_version" = None).
Proof.
  intros s.
  destruct (version_deletion_orphans s (VInt 1)) as (s' & Hdel & Hitems & Hrest & _).
  exists s'. split; [exact Hdel |]. split.
  - apply Hrest. by left.
  - destruct (Hitems Form460ScheduleAItemVersion) as [_ Hrows]; [by left |].
    destruct (Hrows 0%nat (<["id" := VInt 1]> item_version_1_7))
      as (r' & Hr' & Hsame & Hnull); [by_evaluation |].
    exists r'. split; [exact Hr' |]. split.
    + rewrite Hsame by discriminate. by_evaluation.
    + rewrite Hnull. by_evaluation.
Defined.

Lemma fmap_null_out_id (c : string) (pks : list value) (l : list row) :
  (forall r, In r l -> refers_to c pks r = false) ->
  null_out c pks <$> l = l.
Proof.
  induction l as [| r l IH]; intros Hl; [done |].
  rewrite fmap_cons, IH by (intros; apply Hl; by right).
  unfold null_out. by rewrite (Hl r) by (by left).
Qed.

Lemma filter_all {A : Type} (p : A -> bool) (l : list A) :
  (forall x, In x l -> p x = true) -> List.filter p l = l.
Proof.
  induction l as [| a l IH]; intros Hl; [done |].
  cbn [List.filter]. rewrite (Hl a) by (by left).
  f_equal. apply IH. intros; apply Hl. by right.
Qed.

(** X4: in a store produced by insertions and deletions, deleting a
    version that is not stored changes no table: no stored item can refer
    to it, the reference being checked on insertion and nulled on
    deletion. *)
Theorem delete_missing_version (s : store) (vid : value) :
  reachable s ->
  has_pk s Form460FilingVersion vid = false ->
  exists s',
    delete_instance s Form460FilingVersion vid = Ok s' /\
    forall m, In m schema -> objects s' m = objects s m.
Proof.
  intros Hreach Hmissing.
  eexists. split; [apply delete_Form460FilingVersion |].
  intros m Hm.
  destruct (schema_cases m Hm) as [-> | [-> | Hitem]].
  - apply others_after_delete_Form460FilingVersion. by left.
  - rewrite versions_after_delete_Form460FilingVersion.
    apply filter_all. intros r Hr. apply negb_true_iff, not_true_is_false.
    intros Href%refers_to_singleton.
    by apply (proj1 (has_pk_false s Form460FilingVersion vid) Hmissing r Hr).
  - apply in_app_or in Hitem as [Hcur | Hver].
    + apply others_after_delete_Form460FilingVersion. by right.
    + rewrite (objects_after_delete_Form460FilingVersion s vid m Hver).
      apply fmap_null_out_id. intros r Hr. apply not_true_is_false.
      intros Href%refers_to_singleton.
      pose proof (reachable_versions_resolve s Hreach m r vid Hver Hr Href).
      congruence.
Qed.

Lemma delete_missing_version_witness :
  exists s',
    delete_instance (after ∅ scenario) Form460FilingVersion (VInt 5) = Ok s' /\
    objects s' Form460FilingVersion
      = objects (after ∅ scenario) Form460FilingVersion.
Proof.
  destruct (delete_missing_version (after ∅ scenario) (VInt 5))
    as (s' & Hdel & Hsame).
  - apply reachable_scenario.
  - by_evaluation.
  - exists s'. split; [exact Hdel |]. apply Hsame. right. by left.
Defined.

(** X5: deleting a version makes the string representation of each stored
    item that named it fail: the item stays in its table, at its place,
    with an absent [filing_version], on which [__str__] raises. *)
Theorem version_deletion_breaks_str
    (s : store) (vid : value) (m : model) (i : nat) (r : row) :
  In m version_item_models ->
  objects s m !! i = Some r ->
  r !! "filing_version" = Some vid ->
  exists (s' : store) (r' : row),
    delete_instance s Form460FilingVersion vid = Ok s' /\
    objects s' m !! i = Some r' /\
    r' !! "line_item" = r !! "line_item" /\
    version_item_str s' r' = Err AttributeError.
Proof.
  intros Hm Hi Hr.
  eexists _, (null_out "filing_version" [vid] r).
  split; [apply delete_Form460FilingVersion |].
  rewrite (objects_after_delete_Form460FilingVersion s vid m Hm).
  split; [by rewrite list_lookup_fmap, Hi |].
  split; [by apply null_out_other |].
  unfold version_item_str, related.
  rewrite null_out_column, decide_True by done. reflexivity.
Qed.

Lemma version_deletion_breaks_str_witness :
  let s := after (after ∅ scenario)
             (create (after ∅ scenario) Form460ScheduleAItemVersion
                item_version_1_7) in
  version_item_str s (<["id" := VInt 1]> item_version_1_7) = Ok "1001-0-7" /\
  exists (s' : store) (r' : row),
    delete_instance s Form460FilingVersion (VInt 1) = Ok s' /\
    objects s' Form460ScheduleAItemVersion !! 0%nat = Some r' /\
    version_item_str s' r' = Err AttributeError.
Proof.
  intros s. split; [by_evaluation |].
  destruct (version_deletion_breaks_str s (VInt 1) Form460ScheduleAItemVersion
              0%nat (<["id" := VInt 1]> item_version_1_7))
    as (s' & r' & Hdel & Hrow & _ & Hstr).
  - by left.
  - by_evaluation.
  - by_evaluation.
  - exists s', r'. auto.
Defined.

(** ** NOT NULL columns of stored rows *)

Lemma referrers_In (m : model) (mf : model * field) :
  In mf (referrers m) ->
  In (fst mf) schema /\ In (snd mf) (all_fields (fst mf)) /\
  match kind (snd mf) with ForeignKey _ _ _ _ => True | _ => False end.
Proof.
  unfold referrers. rewrite in_flat_map. intros (m' & Hm' & Hin).
  apply in_flat_map in Hin as (f & Hf & Hin).
  destruct (kind f) eqn:Ek; try destruct Hin.
  destruct (String.eqb to (model_name m)); [| destruct Hin].
  destruct Hin as [<- | []]. simpl. rewrite Ek. auto.
Qed.

Lemma schema_foreign_keys_nullable (m : model) (f : field) :
  In m schema -> In f (all_fields m) ->
  match kind f with ForeignKey _ _ _ _ => True | _ => False end ->
  null f = true.
Proof.
  assert (forallb
            (fun m => forallb
                        (fun f => match kind f with
                                  | ForeignKey _ _ _ _ => null f
                                  | _ => true
                                  end)
                        (all_fields m))
            schema = true) as H by by_evaluation.
  intros Hm Hf Hk.
  pose proof (proj1 (forallb_forall _ _) H m Hm) as Hfs. simpl in Hfs.
  pose proof (proj1 (forallb_forall _ _) Hfs f Hf) as Hp. simpl in Hp.
  destruct (kind f); done.
Qed.

Lemma schema_pk_not_null (m : model) :
  In m schema -> null (pk_field m) = false.
Proof.
  assert (forallb (fun m => negb (null (pk_field m))) schema = true) as H
    by by_evaluation.
  intros Hm. apply negb_true_iff. exact (proj1 (forallb_forall _ _) H m Hm).
Qed.

(** Nulling a nullable column keeps the NOT NULL columns of a row. *)
Lemma not_null_null_out (m : model) (f : field) (pks : list value) (r : row) :
  well_formed m = true ->
  In f (all_fields m) -> null f = true ->
  not_null_violation m r = None ->
  not_null_violation m (null_out (name f) pks r) = None.
Proof.
  intros Hwf Hf Hnull. rewrite !not_null_violation_None. intros Hr g Hg Hgn.
  apply andb_true_iff in Hwf as [Hnd _]. apply bool_decide_eq_true in Hnd.
  rewrite null_out_other; [by apply Hr |].
  intros Hn. rewrite (NoDup_name_eq _ g f Hnd Hg Hf Hn) in Hgn. congruence.
Qed.

Lemma not_null_set_null_all (m m' : model) (pks : list value)
    (l : list (model * field)) (t : table) :
  In m' schema ->
  (forall mf, In mf l -> In mf (referrers m)) ->
  (forall r, In r (rows t) -> not_null_violation m' r = None) ->
  forall r,
    In r (rows (fold_left
                  (fun t mf =>
                     if String.eqb (model_name (fst mf)) (model_name m')
                     then set_null (name (snd mf)) pks t else t)
                  l t)) ->
    not_null_violation m' r = None.
Proof.
  intros Hm'. revert t. induction l as [| mf l IH]; intros t Hl Ht; [exact Ht |].
  cbn [fold_left]. apply IH; [intros; apply Hl; by right |].
  destruct (String.eqb_spec (model_name (fst mf)) (model_name m')) as [Heq | _];
    [| exact Ht].
  destruct (referrers_In m mf (Hl mf (or_introl eq_refl))) as (Hs & Hf & Hk).
  apply (schema_model_name_inj _ _ Hs Hm') in Heq.
  intros r Hr. cbn [set_null rows] in Hr.
  apply list_elem_of_In, list_elem_of_fmap in Hr as (r0 & -> & Hr0%list_elem_of_In).
  rewrite Heq in Hf. apply not_null_null_out; auto using schema_well_formed.
  apply (schema_foreign_keys_nullable m'); auto.
Qed.

Lemma not_null_ok_insert (s s' : store) (m : model) (r0 : row) :
  In m schema -> not_null_ok s -> insert s m r0 = Ok s' -> not_null_ok s'.
Proof.
  intros Hm Hs Hins m' r Hm' Hr.
  rewrite (objects_insert_any s s' m m' r0 Hins) in Hr.
  destruct (decide _) as [Heq | Hne]; [| by apply Hs].
  apply in_app_or in Hr as [Hr | [<- | []]]; [by apply Hs |].
  apply (schema_model_name_inj m m' Hm Hm') in Heq as <-.
  by apply insert_Ok in Hins as (Hnn & _).
Qed.

Lemma not_null_ok_delete (s s' : store) (m : model) (pk : value) :
  In m schema -> not_null_ok s -> delete_instance s m pk = Ok s' ->
  not_null_ok s'.
Proof.
  intros Hm Hs Hdel. rewrite (delete_instance_schema s m pk Hm) in Hdel.
  injection Hdel as <-. intros m' r Hm' Hr.
  assert (forall r, In r (objects (set_null_all [pk] (referrers m) s) m') ->
                    not_null_violation m' r = None) as Hnulled.
  { unfold objects. rewrite get_table_set_null_all.
    apply (not_null_set_null_all m); auto. }
  rewrite objects_alter in Hr by reflexivity.
  destruct (decide _); [| by apply Hnulled].
  cbn [remove_rows rows] in Hr. apply filter_In in Hr as [Hr _].
  by apply Hnulled.
Qed.

Lemma reachable_not_null_ok (s : store) : reachable s -> not_null_ok s.
Proof.
  induction 1 as [| s s' o _ IH Hm Hstep].
  - intros m r _ Hr. destruct Hr.
  - destruct o as [m r | m pk]; simpl in *.
    + by apply (not_null_ok_insert s s' m r).
    + by apply (not_null_ok_delete s s' m pk).
Qed.

(** X6: NOT NULL columns stay filled.  In every store produced by
    insertions and deletions, each stored row of each model has a value in
    every required column of the model and in its primary key: deletion
    nulls nothing but the nullable parent references. *)
Theorem stored_rows_complete (s : store) (m : model) (r : row) :
  reachable s -> In m schema -> In r (objects s m) ->
  supplies r (required_columns m) = true /\
  is_Some (r !! pk_name m).
Proof.
  intros Hreach Hm Hr.
  pose proof (proj1 (not_null_violation_None m r)
                (reachable_not_null_ok s Hreach m r Hm Hr)) as Hall.
  split.
  - apply supplies_true. intros c Hc.
    apply required_columns_In in Hc as (f & Hf & <- & Hnull & _).
    apply Hall; auto using all_fields_incl.
  - apply Hall; [apply pk_field_all_fields | by apply schema_pk_not_null].
Qed.

Lemma stored_rows_complete_witness :
  let s := after (after ∅ (create ∅ Form460FilingVersion version_1001_0))
             (delete_instance
                (after ∅ (create ∅ Form460FilingVersion version_1001_0))
                Form460Filing (VInt 1001)) in
  let r : row := <["id" := VInt 1]> (delete "filing" version_1001_0) in
  supplies r (required_columns Form460FilingVersion) = true /\
  is_Some (r !! pk_name Form460FilingVersion).
Proof.
  intros s r.
  apply (stored_rows_complete s Form460FilingVersion r).
  - apply (reachable_step
             (after ∅ (create ∅ Form460FilingVersion version_1001_0)) _
             (Delete Form460Filing (VInt 1001))).
    + apply (reachable_step ∅ _
               (Insert Form460FilingVersion
                  (construct Form460FilingVersion version_1001_0))).
      * apply reachable_empty.
      * right. by left.
      * by_evaluation.
    + by left.
    + by_evaluation.
  - right. by left.
  - only_row.
Defined.

(** ** Stored items of the current tier name stored filings *)

Lemma constrained_current_item_models_eq :
  constrained_current_item_models =
  [ Form460ScheduleAItem; Form460ScheduleCItem; Form460ScheduleDItem;
    Form460ScheduleEItem; Form460ScheduleESubItem; Form460ScheduleGItem ].
Proof. by_evaluation. Qed.

Lemma constrained_current (m : model) :
  In m constrained_current_item_models -> In m current_item_models.
Proof. unfold constrained_current_item_models. by intros [? _]%filter_In. Qed.

Lemma current_item_reference_checked (s : store) (m : model) (r : row)
    (fid : value) :
  In m constrained_current_item_models ->
  foreign_key_violation s m r = None ->
  r !! "filing" = Some fid ->
  has_pk s Form460Filing fid = true.
Proof.
  intros Hm Hfk Hr.
  assert (exists rn,
            In (nullable (column "filing"
                  (ForeignKey "Form460Filing" rn true SET_NULL)))
               (all_fields m)) as [rn Hf].
  { rewrite constrained_current_item_models_eq in Hm. simpl in Hm.
    repeat (destruct Hm as [<- | Hm];
            [eexists; apply in_cons, in_or_app; right; left; reflexivity |]).
    destruct Hm. }
  pose proof (proj1 (foreign_key_violation_None s m r) Hfk _ Hf) as Hd.
  unfold dangling in Hd. cbn [kind name nullable column] in Hd.
  rewrite Hr in Hd.
  change (find_model "Form460Filing") with (Some Form460Filing) in Hd.
  by apply negb_false_iff in Hd.
Qed.

Lemma filings_after_delete_Form460Filing (s : store) (fid : value) :
  objects (alter (remove_rows "filing_id" [fid]) "Form460Filing"
             (set_null_all [fid] (referrers Form460Filing) s))
    Form460Filing
  = List.filter (fun r => negb (refers_to "filing_id" [fid] r))
      (objects s Form460Filing).
Proof.
  unfold objects.
  rewrite (get_table_alter_eq _ _ Form460Filing) by reflexivity.
  rewrite get_table_set_null_all. by_evaluation.
Qed.

Lemma item_model_not_filing (m : model) :
  In m (current_item_models ++ version_item_models) ->
  model_name m ≠ model_name Form460Filing.
Proof.
  intros Hm. simpl in Hm.
  repeat (destruct Hm as [<- | Hm]; [discriminate |]). destruct Hm.
Qed.

Lemma filings_resolve_insert (s s' : store) (m : model) (r0 : row) :
  In m schema -> filings_resolve s -> insert s m r0 = Ok s' ->
  filings_resolve s'.
Proof.
  intros Hm Hs Hins m' r fid Hm' Hr Hv.
  rewrite (objects_insert_any s s' m m' r0 Hins) in Hr.
  apply (has_pk_insert s s' m _ r0 _ Hins).
  destruct (decide _) as [Heq | Hne]; [| by apply (Hs m' r)].
  apply in_app_or in Hr as [Hr | [<- | []]]; [by apply (Hs m' r) |].
  apply (schema_model_name_inj m m' Hm) in Heq as <-;
    [| apply item_models_in_schema; right; apply in_or_app; left;
       by apply constrained_current].
  apply insert_Ok in Hins as (_ & _ & Hfk & _).
  by apply (current_item_reference_checked s m _ fid Hm' Hfk).
Qed.

Lemma filings_resolve_delete (s s' : store) (m : model) (pk : value) :
  In m schema -> filings_resolve s -> delete_instance s m pk = Ok s' ->
  filings_resolve s'.
Proof.
  intros Hm Hs Hdel. rewrite (delete_instance_schema s m pk Hm) in Hdel.
  injection Hdel as <-.
  destruct (schema_cases m Hm) as [-> | [-> | Hitem]]; intros m' r fid Hm' Hr Hv.
  - (* a summary row: the items that named it lose their reference *)
    change (pk_name Form460Filing) with "filing_id" in *.
    change (model_name Form460Filing) with "Form460Filing" in *.
    rewrite (objects_after_delete_Form460Filing s pk m') in Hr
      by (right; by apply constrained_current).
    apply list_elem_of_In, list_elem_of_fmap in Hr as (r0 & -> & Hr0%list_elem_of_In).
    rewrite null_out_column in Hv.
    destruct (decide (r0 !! "filing" = Some pk)) as [| Hne]; [done |].
    apply has_pk_true. rewrite filings_after_delete_Form460Filing.
    destruct (proj1 (has_pk_true s _ fid) (Hs m' r0 fid Hm' Hr0 Hv))
      as (v & Hin & Hid).
    exists v. split; [| done]. apply filter_In. split; [done |].
    apply negb_true_iff, not_true_is_false. intros Href.
    apply refers_to_singleton in Href.
    change (pk_name Form460Filing) with "filing_id" in Hid. congruence.
  - (* a version: summary rows and current items are untouched *)
    change (pk_name Form460FilingVersion) with "id" in *.
    change (model_name Form460FilingVersion) with "Form460FilingVersion" in *.
    rewrite (others_after_delete_Form460FilingVersion s pk m') in Hr
      by (right; by apply constrained_current).
    unfold has_pk.
    rewrite (others_after_delete_Form460FilingVersion s pk Form460Filing)
      by (by left).
    by apply (Hs m' r).
  - (* an itemized row: only that row goes *)
    destruct (item_model_no_referrers m Hitem) as [Hrefs _].
    pose proof (item_model_not_filing m Hitem) as Hname.
    rewrite Hrefs in *. cbn [set_null_all fold_left] in *.
    rewrite objects_alter in Hr by reflexivity.
    unfold has_pk. rewrite objects_alter_ne by done.
    apply (Hs m' r fid Hm'); [| done].
    destruct (decide _); [| done].
    cbn [remove_rows rows] in Hr. by apply filter_In in Hr as [Hr _].
Qed.

Lemma reachable_filings_resolve (s : store) :
  reachable s -> filings_resolve s.
Proof.
  induction 1 as [| s s' o _ IH Hm Hstep].
  - intros m r fid Hm Hr.
    rewrite constrained_current_item_models_eq in Hm. simpl in Hm.
    repeat (destruct Hm as [<- | Hm]; [destruct Hr |]). destruct Hm.
  - destruct o as [m r | m pk]; simpl in *.
    + by apply (filings_resolve_insert s s' m r).
    + by apply (filings_resolve_delete s s' m pk).
Qed.

(** A stored primary key is found by [objects_get], once and only once. *)
Lemma stored_get (s : store) (m : model) (v : value) :
  In m schema -> unique_ok s ->
  has_pk s m v = true ->
  exists r,
    In r (objects s m) /\ r !! pk_name m = Some v /\
    objects_get s m [(pk_name m, v)] = Ok r.
Proof.
  intros Hm Hu Hpk. apply has_pk_true in Hpk as (r & Hr & Hid).
  assert (In r (objects_filter s m [(pk_name m, v)])) as Hin.
  { apply filter_In. split; [done |]. apply matches_true.
    intros c w [[= <- <-] | []]. done. }
  assert (length (objects_filter s m [(pk_name m, v)]) <= 1)%nat as Hlen.
  { apply (distinct_on_filter_length [pk_name m]).
    - apply (Hu m); [done | by left].
    - intros c [<- | []]. exists v. by left. }
  exists r. split; [done |]. split; [done |]. unfold objects_get.
  destruct (objects_filter s m [(pk_name m, v)]) as [| x [| y l]];
    cbn [length] in Hlen.
  - destruct Hin.
  - destruct Hin as [-> | []]. reflexivity.
  - lia.
Qed.

(** X7: for the six itemized tables of the current tier whose [filing]
    reference carries a storage constraint, the string representation of
    a stored row never fails in a store produced by insertions and
    deletions: it is the filing identifier, or [None] for an orphaned row,
    a dash and the line item. *)
Theorem current_item_str_total (s : store) (m : model) (r : row) :
  reachable s ->
  In m constrained_current_item_models ->
  In r (objects s m) ->
  current_item_str s r =
    Ok (py_str (r !! "filing") +:+ "-" +:+ py_str (r !! "line_item")).
Proof.
  intros Hreach Hm Hr. unfold current_item_str, related.
  destruct (r !! "filing") as [fid |] eqn:Hfid; [| reflexivity].
  destruct (stored_get s Form460Filing fid) as (f & _ & Hid & Hget).
  - by left.
  - by apply reachable_unique_ok.
  - by apply (reachable_filings_resolve s Hreach m r).
  - rewrite Hget. cbn [bind filing_or_None_str]. unfold Form460Filing_str.
    change (pk_name Form460Filing) with "filing_id" in Hid. by rewrite Hid.
Qed.

Lemma current_item_str_total_witness :
  current_item_str (after ∅ scenario) (<["id" := VInt 1]> item_1001_1)
  = Ok "1001-1".
Proof.
  rewrite (current_item_str_total (after ∅ scenario) Form460ScheduleAItem).
  - by_evaluation.
  - apply reachable_scenario.
  - rewrite constrained_current_item_models_eq. by left.
  - only_row.
Defined.

(** ** String representations that read the [filing] reference *)

Lemma related_absent (s : store) (to : model) (c : string) (r : row) :
  r !! c = None -> related s to c r = Ok None.
Proof. intros H. unfold related. by rewrite H. Qed.

Lemma related_dangling (s : store) (to : model) (c : string) (r : row)
    (v : value) :
  r !! c = Some v -> has_pk s to v = false ->
  related s to c r = Err DoesNotExist.
Proof.
  intros Hr Hpk. unfold related, objects_get. rewrite Hr.
  by rewrite (has_pk_false_filter s to v Hpk).
Qed.

(** X8: the string representations of a version and of an itemized row of
    the current tier read the [filing] parent.  With the reference absent
    they return [None], a dash and the [amend_id] (the [line_item]); with a
    reference to a filing that is not stored they fail with
    [DoesNotExist].  The latter happens to stored rows: the [filing]
    references of versions and of Schedule I items carry no storage
    constraint, so a store holding such a row is produced by a single
    insertion. *)
Theorem filing_reference_str (s : store) (r : row) :
  (r !! "filing" = None ->
     Form460FilingVersion_str s r = Ok ("None-" +:+ py_str (r !! "amend_id")) /\
     current_item_str s r = Ok ("None-" +:+ py_str (r !! "line_item"))) /\
  (forall v, r !! "filing" = Some v -> has_pk s Form460Filing v = false ->
     Form460FilingVersion_str s r = Err DoesNotExist /\
     current_item_str s r = Err DoesNotExist) /\
  (exists s0 r0,
     reachable s0 /\ In r0 (objects s0 Form460FilingVersion) /\
     Form460FilingVersion_str s0 r0 = Err DoesNotExist) /\
  (exists s0 r0,
     reachable s0 /\ In r0 (objects s0 Form460ScheduleIItem) /\
     current_item_str s0 r0 = Err DoesNotExist).
Proof.
  split; [| split; [| split]].
  - intros Hr. unfold Form460FilingVersion_str, current_item_str.
    by rewrite (related_absent s Form460Filing "filing" r Hr).
  - intros v Hr Hpk. unfold Form460FilingVersion_str, current_item_str.
    by rewrite (related_dangling s Form460Filing "filing" r v Hr Hpk).
  - exists (after ∅ (create ∅ Form460FilingVersion version_1001_0)),
           (<["id" := VInt 1]> version_1001_0).
    split; [| split; [only_row | by_evaluation]].
    apply (reachable_step ∅ _
             (Insert Form460FilingVersion
                (construct Form460FilingVersion version_1001_0))).
    + apply reachable_empty.
    + right. by left.
    + by_evaluation.
  - exists (after ∅ (create ∅ Form460ScheduleIItem item_1001_1)),
           (assign_pk Form460ScheduleIItem empty_table
              (construct Form460ScheduleIItem item_1001_1)).
    split; [| split; [only_row | by_evaluation]].
    apply (reachable_step ∅ _
             (Insert Form460ScheduleIItem
                (construct Form460ScheduleIItem item_1001_1))).
    + apply reachable_empty.
    + apply item_models_in_schema. simpl. auto 10.
    + by_evaluation.
Qed.

Lemma filing_reference_str_witness :
  Form460FilingVersion_str ∅ (delete "filing" version_1001_0) = Ok "None-0" /\
  current_item_str ∅ item_1001_1 = Err DoesNotExist.
Proof.
  split.
  - destruct (filing_reference_str ∅ (delete "filing" version_1001_0))
      as (Habsent & _).
    destruct Habsent as [Hv _]; [by_evaluation |].
    rewrite Hv. by_evaluation.
  - destruct (filing_reference_str ∅ item_1001_1) as (_ & Hdangling & _).
    destruct (Hdangling (VInt 1001)) as [_ Hi]; [by_evaluation | by_evaluation |].
    exact Hi.
Defined.

(** X9: deleting a summary row does not break the string representations
    of the rows that named it.  Each version and each itemized row of the
    current tier that referred to the deleted filing stays at its place,
    and its representation becomes [None], a dash and the [amend_id] (the
    [line_item]). *)
Theorem filing_deletion_str (s : store) (fid : value) (i : nat) (r : row) :
  r !! "filing" = Some fid ->
  (objects s Form460FilingVersion !! i = Some r ->
     exists (s' : store) (r' : row),
       delete_instance s Form460Filing fid = Ok s' /\
       objects s' Form460FilingVersion !! i = Some r' /\
       Form460FilingVersion_str s' r'
         = Ok ("None-" +:+ py_str (r !! "amend_id"))) /\
  (forall m, In m current_item_models ->
     objects s m !! i = Some r ->
     exists (s' : store) (r' : row),
       delete_instance s Form460Filing fid = Ok s' /\
       objects s' m !! i = Some r' /\
       current_item_str s' r' = Ok ("None-" +:+ py_str (r !! "line_item"))).
Proof.
  intros Hr.
  assert (null_out "filing" [fid] r !! "filing" = None) as Hnone
    by (rewrite null_out_column; by rewrite decide_True).
  split.
  - intros Hi. eexists _, (null_out "filing" [fid] r).
    split; [apply delete_Form460Filing |].
    rewrite (objects_after_delete_Form460Filing s fid Form460FilingVersion)
      by (by left).
    split; [by rewrite list_lookup_fmap, Hi |].
    unfold Form460FilingVersion_str.
    rewrite (related_absent _ Form460Filing "filing" _ Hnone).
    by rewrite null_out_other.
  - intros m Hm Hi. eexists _, (null_out "filing" [fid] r).
    split; [apply delete_Form460Filing |].
    rewrite (objects_after_delete_Form460Filing s fid m) by (by right).
    split; [by rewrite list_lookup_fmap, Hi |].
    unfold current_item_str.
    rewrite (related_absent _ Form460Filing "filing" _ Hnone).
    by rewrite null_out_other.
Qed.

Lemma filing_deletion_str_witness :
  current_item_str (after ∅ scenario) (<["id" := VInt 1]> item_1001_1)
    = Ok "1001-1" /\
  exists (s' : store) (r' : row),
    delete_instance (after ∅ scenario) Form460Filing (VInt 1001) = Ok s' /\
    objects s' Form460ScheduleAItem !! 0%nat = Some r' /\
    current_item_str s' r' = Ok "None-1".
Proof.
  split; [by_evaluation |].
  destruct (filing_deletion_str (after ∅ scenario) (VInt 1001) 0%nat
              (<["id" := VInt 1]> item_1001_1)) as [_ Hitems]; [by_evaluation |].
  destruct (Hitems Form460ScheduleAItem) as (s' & r' & Hdel & Hrow & Hstr).
  - by left.
  - by_evaluation.
  - exists s', r'. split; [exact Hdel |]. split; [exact Hrow |].
    rewrite Hstr. by_evaluation.
Defined.

(** ** What a creation stores *)

Lemma apply_defaults_notin (l : list field) (kwargs : row) (c : string) :
  ~ In c (name <$> l) -> apply_defaults l kwargs !! c = kwargs !! c.
Proof.
  induction l as [| f l IH]; [done |].
  rewrite fmap_cons. cbn [apply_defaults fold_right In]. intros Hc.
  fold (apply_defaults l kwargs).
  destruct (apply_defaults l kwargs !! name f) eqn:E; [apply IH; tauto |].
  destruct (get_default f); [| apply IH; tauto].
  rewrite lookup_insert_ne by tauto. apply IH. tauto.
Qed.

Lemma apply_defaults_lookup (l : list field) (kwargs : row) (c : string) :
  NoDup (name <$> l) -> kwargs !! c = None ->
  apply_defaults l kwargs !! c =
  match find (fun f => String.eqb (name f) c) l with
  | Some f => get_default f
  | None => None
  end.
Proof.
  intros Hnd Hc. induction l as [| f l IH]; [done |].
  rewrite fmap_cons in Hnd. apply NoDup_cons in Hnd as [Hf Hnd].
  cbn [apply_defaults fold_right find]. fold (apply_defaults l kwargs).
  destruct (String.eqb_spec (name f) c) as [<- | Hne].
  - assert (apply_defaults l kwargs !! name f = None) as ->.
    { rewrite apply_defaults_notin; [done |]. by rewrite <- list_elem_of_In. }
    destruct (get_default f); [apply lookup_insert_eq |].
    rewrite apply_defaults_notin; [done |]. by rewrite <- list_elem_of_In.
  - destruct (apply_defaults l kwargs !! name f); [by apply IH |].
    destruct (get_default f); [| by apply IH].
    rewrite lookup_insert_ne by done. by apply IH.
Qed.

Lemma default_of_pk (m : model) :
  well_formed m = true -> kind (pk_field m) = AutoField ->
  default_of m (pk_name m) = None.
Proof.
  intros Hwf Hk. apply andb_true_iff in Hwf as [Hnd _].
  apply bool_decide_eq_true in Hnd. unfold default_of.
  destruct (find _ (all_fields m)) as [f |] eqn:E; [| done].
  apply find_some in E as [Hf Hn]. apply String.eqb_eq in Hn.
  rewrite (NoDup_name_eq _ f (pk_field m) Hnd Hf (pk_field_all_fields m) Hn).
  unfold get_default. by rewrite Hk.
Qed.

Lemma schema_defaults (m : model) (c : string) :
  In m schema ->
  default_of m c = None \/ default_of m c = Some (VStr "").
Proof.
  intros Hm. unfold default_of.
  destruct (find _ (all_fields m)) as [f |]; [| by left].
  unfold get_default. destruct (kind f); auto. destruct (null f); auto.
Qed.

(** X10: what [create] stores.  A successful creation appends one row and
    changes no other.  The new row has every value it was given; a column
    it was not given holds the column's default, which is the empty
    string for a NOT NULL text column and nothing for every other column;
    and an [id] it was not given is drawn from the sequence. *)
Theorem create_stores (s s' : store) (m : model) (kwargs : row) :
  In m schema ->
  create s m kwargs = Ok s' ->
  exists r,
    objects s' m = objects s m ++ [r] /\
    (forall c v, kwargs !! c = Some v -> r !! c = Some v) /\
    (forall c, kwargs !! c = None ->
       c ≠ pk_name m \/ kind (pk_field m) ≠ AutoField ->
       r !! c = default_of m c /\
       (default_of m c = None \/ default_of m c = Some (VStr ""))) /\
    (kwargs !! pk_name m = None -> kind (pk_field m) = AutoField ->
       r !! pk_name m = Some (VInt (next_id (get_table s m)))).
Proof.
  intros Hm Hc. pose proof (schema_well_formed m Hm) as Hwf.
  assert (NoDup (name <$> all_fields m)) as Hnd.
  { apply andb_true_iff in Hwf as [Hnd _]. by apply bool_decide_eq_true in Hnd. }
  exists (assign_pk m (get_table s m) (construct m kwargs)).
  split; [by apply objects_create |]. split; [| split].
  - intros c v Hv. apply assign_pk_Some. by apply apply_defaults_Some.
  - intros c Hnone Hcase. split; [| by apply schema_defaults].
    transitivity (construct m kwargs !! c);
      [| by apply apply_defaults_lookup].
    destruct Hcase as [Hne | Hk]; [by apply assign_pk_ne |].
    by rewrite assign_pk_not_auto.
  - intros Hnone Hk.
    assert (construct m kwargs !! pk_name m = None) as Hcn.
    { unfold construct. rewrite apply_defaults_lookup by done.
      by apply default_of_pk. }
    unfold assign_pk, draws_id. rewrite Hk, Hcn. apply lookup_insert_eq.
Qed.

Lemma create_stores_witness :
  exists r,
    objects (after ∅ (create ∅ Form460ScheduleIItem item_1001_1))
      Form460ScheduleIItem = [r] /\
    r !! "amount" = Some (VDecimal 250000) /\
    r !! "receipt_description" = Some (VStr "") /\
    r !! "id" = Some (VInt 1).
Proof.
  destruct (create_stores ∅ (after ∅ (create ∅ Form460ScheduleIItem item_1001_1))
              Form460ScheduleIItem item_1001_1)
    as (r & Hrows & Hgiven & Hdefault & Hid).
  - apply item_models_in_schema. simpl. auto 10.
  - by_evaluation.
  - exists r. split; [exact Hrows |]. split; [| split].
    + apply Hgiven. by_evaluation.
    + destruct (Hdefault "receipt_description") as [-> _];
        [by_evaluation | left; discriminate | by_evaluation].
    + etransitivity; [apply Hid; by_evaluation | by_evaluation].
Defined.

(** ** Creating and deleting an itemized row *)

Lemma item_model_parent (m : model) :
  In m (current_item_models ++ version_item_models) ->
  exists pc, parent_column m = Some pc.
Proof.
  intros Hm. simpl in Hm.
  repeat (destruct Hm as [<- | Hm]; [eexists; reflexivity |]). destruct Hm.
Qed.

(** X11: creating an itemized row and deleting it again restores every
    table.  If the store's [id] sequence for the table is fresh and the row
    is given no [id], then after the creation and the deletion of the row
    with the drawn [id] every model has the rows it had; only the
    sequence has moved on, so the [id] is not drawn again. *)
Theorem create_then_delete_item (s s1 : store) (m : model) (kwargs : row) :
  In m (current_item_models ++ version_item_models) ->
  kwargs !! "id" = None ->
  has_pk s m (VInt (next_id (get_table s m))) = false ->
  create s m kwargs = Ok s1 ->
  exists s2,
    delete_instance s1 m (VInt (next_id (get_table s m))) = Ok s2 /\
    (forall m', In m' schema -> objects s2 m' = objects s m') /\
    next_id (get_table s2 m) = next_id (get_table s m) + 1.
Proof.
  intros Hm Hid Hfresh Hc.
  assert (In m schema) as Hschema by (apply item_models_in_schema; by right).
  destruct (item_model_parent m Hm) as [pc Hpc].
  destruct (parent_reference_facts m pc
              (parent_reference_shape_schema m pc (or_intror Hm) Hpc))
    as (Hpk & Hauto & _ & _ & Hdef & _).
  destruct (item_model_no_referrers m Hm) as [Hrefs _].
  assert (construct m kwargs !! "id" = None) as Hcid
    by (apply apply_defaults_None; [done | intros f Hf Hn; apply Hdef; auto]).
  assert (draws_id m (construct m kwargs) = true) as Hdraws
    by (unfold draws_id; by rewrite Hauto, Hpk, Hcid).
  set (n := next_id (get_table s m)) in *.
  assert (assign_pk m (get_table s m) (construct m kwargs)
          = <["id" := VInt n]> (construct m kwargs)) as Hrow
    by (unfold assign_pk; by rewrite Hdraws, Hpk).
  eexists. split; [by apply delete_instance_schema |].
  rewrite Hrefs, Hpk. cbn [set_null_all fold_left].
  pose proof (create_Ok s s1 m kwargs Hc) as (_ & _ & _ & Hs1).
  split.
  - intros m' Hm'. rewrite objects_alter by reflexivity.
    destruct (decide (model_name m = model_name m')) as [Heq | Hne].
    + apply (schema_model_name_inj m m' Hschema Hm') in Heq as <-.
      cbn [remove_rows rows]. change (rows (get_table s1 m)) with (objects s1 m).
      rewrite (objects_create s s1 m kwargs Hc), Hrow. rewrite List.filter_app. cbn [List.filter].
      assert (refers_to "id" [VInt n] (<["id" := VInt n]> (construct m kwargs))
              = true) as ->
        by (apply refers_to_singleton, lookup_insert_eq).
      cbn [negb]. rewrite app_nil_r. apply filter_all.
      intros r Hr. apply negb_true_iff, not_true_is_false.
      intros Href%refers_to_singleton.
      apply (proj1 (has_pk_false s m (VInt n)) Hfresh r Hr). by rewrite Hpk.
    + by apply (objects_create_ne s s1 m m' kwargs).
  - rewrite get_table_alter_eq by reflexivity. cbn [remove_rows next_id].
    rewrite Hs1, get_table_insert_eq. unfold add_row. cbn [next_id].
    by rewrite Hdraws.
Qed.

Lemma create_then_delete_item_witness :
  let s := after ∅ scenario in
  let kwargs : row := <["line_item" := VInt 2]> item_1001_1 in
  exists s2,
    delete_instance (after s (create s Form460ScheduleAItem kwargs))
      Form460ScheduleAItem (VInt 2) = Ok s2 /\
    objects s2 Form460ScheduleAItem = objects s Form460ScheduleAItem /\
    next_id (get_table s2 Form460ScheduleAItem) = 3.
Proof.
  intros s kwargs.
  destruct (create_then_delete_item s
              (after s (create s Form460ScheduleAItem kwargs))
              Form460ScheduleAItem kwargs) as (s2 & Hdel & Hsame & Hnext).
  - by left.
  - by_evaluation.
  - by_evaluation.
  - by_evaluation.
  - exists s2. split; [exact Hdel |]. split.
    + apply Hsame. apply item_models_in_schema. simpl. auto.
    + rewrite Hnext. by_evaluation.
Defined.

(** ** Replacing a summary row *)

Lemma create_Form460Filing (s : store) (kwargs : row) (fid : value) :
  kwargs !! "filing_id" = Some fid ->
  supplies kwargs (required_columns Form460Filing) = true ->
  has_pk s Form460Filing fid = false ->
  exists s',
    create s Form460Filing kwargs = Ok s' /\
    objects s' Form460Filing = objects s Form460Filing ++ [kwargs] /\
    objects_get s' Form460Filing [("filing_id", fid)] = Ok kwargs.
Proof.
  intros Hid Hs Hfresh.
  assert (construct Form460Filing kwargs = kwargs) as Hc
    by (apply construct_id; by_evaluation).
  assert (forall t, assign_pk Form460Filing t kwargs = kwargs) as Hpk
    by (intros t; by apply assign_pk_not_auto).
  assert (create s Form460Filing kwargs =
          Ok (<[model_name Form460Filing :=
                  add_row Form460Filing (construct Form460Filing kwargs)
                    (get_table s Form460Filing)]> s)) as Hins.
  { unfold create. apply insert_checks.
    - apply supplies_not_null; [by_evaluation | done].
    - rewrite Hc, Hpk. apply unique_violation_None. intros u r' [<- | []] Hr'.
      apply not_true_is_false. intros Hk.
      destruct (proj1 (same_key_true _ _ _) Hk "filing_id") as (v & Hv & Hv');
        [by left |].
      apply (proj1 (has_pk_false s Form460Filing fid) Hfresh r' Hr').
      change (pk_name Form460Filing) with "filing_id". congruence.
    - reflexivity. }
  pose proof (objects_create _ _ _ _ Hins) as Hrows. rewrite !Hc, Hpk in Hrows.
  rewrite Hc in Hins. eexists. split; [exact Hins |].
  split; [exact Hrows |].
  unfold objects_get, objects_filter. rewrite Hrows, List.filter_app.
  pose proof (has_pk_false_filter s Form460Filing fid Hfresh) as Hnone.
  change (pk_name Form460Filing) with "filing_id" in Hnone.
  unfold objects_filter in Hnone. rewrite Hnone.
  cbn [List.filter app]. unfold matches. cbn [forallb fst snd].
  by rewrite Hid, bool_decide_eq_true_2.
Qed.

(** X12: a summary row replaced by deletion and re-creation loses its
    versions and items.  Whatever the store, deleting the summary row of a
    filing and creating a complete row with the same [filing_id] both
    succeed and the new row is found by its identifier; but the versions
    and the itemized rows of the current tier that named the filing stay
    orphaned: their [filing] is absent as the deletion left it. *)
Theorem filing_replaced (s : store) (kwargs : row) (fid : value) :
  kwargs !! "filing_id" = Some fid ->
  supplies kwargs (required_columns Form460Filing) = true ->
  exists s1 s2,
    delete_instance s Form460Filing fid = Ok s1 /\
    create s1 Form460Filing kwargs = Ok s2 /\
    objects_get s2 Form460Filing [("filing_id", fid)] = Ok kwargs /\
    (forall m, In m (Form460FilingVersion :: current_item_models) ->
       objects s2 m = null_out "filing" [fid] <$> objects s m) /\
    (forall m r, In m (Form460FilingVersion :: current_item_models) ->
       In r (objects s2 m) -> r !! "filing" ≠ Some fid).
Proof.
  intros Hid Hs.
  destruct (create_Form460Filing
              (alter (remove_rows "filing_id" [fid]) "Form460Filing"
                 (set_null_all [fid] (referrers Form460Filing) s))
              kwargs fid Hid Hs) as (s2 & Hcreate & _ & Hget).
  { apply has_pk_false. intros r Hr.
    rewrite filings_after_delete_Form460Filing in Hr.
    apply filter_In in Hr as [_ Hr]. apply negb_true_iff in Hr.
    intros Href. change (pk_name Form460Filing) with "filing_id" in Href.
    apply refers_to_singleton in Href. congruence. }
  assert (forall m, In m (Form460FilingVersion :: current_item_models) ->
            objects s2 m = null_out "filing" [fid] <$> objects s m) as Hrows.
  { intros m Hm.
    rewrite (objects_create_ne _ _ Form460Filing m kwargs Hcreate).
    - by apply objects_after_delete_Form460Filing.
    - simpl in Hm.
      repeat (destruct Hm as [<- | Hm]; [discriminate |]). destruct Hm. }
  eexists _, s2. split; [apply delete_Form460Filing |].
  split; [exact Hcreate |]. split; [exact Hget |]. split; [exact Hrows |].
  intros m r Hm Hr. rewrite (Hrows m Hm) in Hr.
  apply list_elem_of_In, list_elem_of_fmap in Hr as (r0 & -> & _).
  rewrite null_out_column. by destruct (decide _).
Qed.

Lemma filing_replaced_witness :
  exists s1 s2,
    delete_instance (after ∅ scenario) Form460Filing (VInt 1001) = Ok s1 /\
    create s1 Form460Filing filing_1001 = Ok s2 /\
    objects_get s2 Form460Filing [("filing_id", VInt 1001)] = Ok filing_1001 /\
    objects s2 Form460ScheduleAItem
      = [ <["id" := VInt 1]> (delete "filing" item_1001_1) ].
Proof.
  destruct (filing_replaced (after ∅ scenario) filing_1001 (VInt 1001))
    as (s1 & s2 & Hdel & Hcreate & Hget & Hrows & _).
  - by_evaluation.
  - by_evaluation.
  - exists s1, s2. split; [exact Hdel |]. split; [exact Hcreate |].
    split; [exact Hget |].
    rewrite (Hrows Form460ScheduleAItem) by (simpl; auto). by_evaluation.
Defined.
